(** * semverer: the AST version inspector (src/semverer/main.py)

    A shallow embedding of [ASTVersionInspector]: signature extraction
    over the Python syntax tree, the package scan, the diff classifier,
    the version bump and the persistence into pyproject.toml, followed by
    the properties of the written specification checked against it. *)

From Stdlib Require Import String Ascii List Bool Arith NArith Lia.
From Stdlib Require Import DecimalString DecimalN.
From Equations Require Import Equations.
Import ListNotations.
Open Scope string_scope.

Set Implicit Arguments.
Set Warnings "-register-all".

(** ** Python dictionaries

    A [dict] keeps its keys in insertion order; assigning to a key that is
    already present replaces the value where the key stands, a new key goes
    to the end.  Iteration ([for key in d], [d.items()]) follows that
    order. *)
Module Dict.

Definition dict (V : Type) : Type := list (string * V).

Definition empty {V : Type} : dict V := [].

Definition keys {V : Type} (d : dict V) : list string := map fst d.

(** [d.get(k)] *)
Fixpoint get {V : Type} (d : dict V) (k : string) : option V :=
  match d with
  | [] => None
  | (k', v) :: d' => if String.eqb k k' then Some v else get d' k
  end.

(** [k in d] *)
Definition mem {V : Type} (d : dict V) (k : string) : bool :=
  match get d k with Some _ => true | None => false end.

(** [d[k] = v] *)
Fixpoint set {V : Type} (d : dict V) (k : string) (v : V) : dict V :=
  match d with
  | [] => [(k, v)]
  | (k', v') :: d' =>
      if String.eqb k k' then (k', v) :: d' else (k', v') :: set d' k v
  end.

(** [d.get(k, dflt)] *)
Definition get_default {V : Type} (d : dict V) (k : string) (dflt : V) : V :=
  match get d k with Some v => v | None => dflt end.

(** [a == b] on dictionaries: same number of keys, and every key of [a]
    is bound in [b] to an equal value; the order of insertion plays no
    part. *)
Definition eqb {V : Type} (veqb : V -> V -> bool) (a b : dict V) : bool :=
  Nat.eqb (length a) (length b)
  && forallb (fun kv => match get b (fst kv) with
                        | Some v' => veqb (snd kv) v'
                        | None => false
                        end) a.

(** Assigning a run of bindings, one after the other. *)
Definition assign_all {V : Type} (d : dict V) (l : list (string * V)) : dict V :=
  fold_left (fun acc kv => set acc (fst kv) (snd kv)) l d.

End Dict.
Import Dict.

(** ** The syntax tree

    What [ast.parse] returns, cut down to what [ast.walk] and the two
    [isinstance] tests of [extract_api] can tell apart.  [args] holds the
    names [arg.arg] of [node.args.args] in order.  [Other] stands for every
    node that is neither an [ast.FunctionDef] nor an [ast.ClassDef]
    ([Module], [If], [Try], an [ExceptHandler], [AsyncFunctionDef], ...);
    its children are given in the order of [ast.iter_child_nodes].
    Children that are expressions hold no statement and are left out: the
    order in which [ast.walk] reaches the remaining nodes is the same. *)
Inductive node : Type :=
| FunctionDef (name : string) (args : list string) (body : list node)
| ClassDef (name : string) (body : list node)
| Other (children : list node).

Definition Module (body : list node) : node := Other body.

(** [async def name(args): body] is an [ast.AsyncFunctionDef], which is
    not an instance of [ast.FunctionDef]: no line of the code reads its
    name or its arguments, and [ast.walk] goes on through its body. *)
Definition AsyncFunctionDef (name : string) (args : list string) (body : list node)
  : node := Other body.

(** [ast.iter_child_nodes] *)
Definition iter_child_nodes (n : node) : list node :=
  match n with
  | FunctionDef _ _ body => body
  | ClassDef _ body => body
  | Other children => children
  end.

Fixpoint node_size (n : node) : nat :=
  match n with
  | FunctionDef _ _ body => S (list_sum (map node_size body))
  | ClassDef _ body => S (list_sum (map node_size body))
  | Other children => S (list_sum (map node_size children))
  end.

Definition todo_size (todo : list node) : nat := list_sum (map node_size todo).

(** [ast.walk]: a queue, [popleft], then [extend] with the children.
<<
    todo = deque([node])
    while todo:
        node = todo.popleft()
        todo.extend(iter_child_nodes(node))
        yield node
>> *)
Equations? walk_queue (todo : list node) : list node by wf (todo_size todo) lt :=
  walk_queue [] := [];
  walk_queue (n :: rest) := n :: walk_queue (rest ++ iter_child_nodes n).
Proof.
  unfold todo_size. rewrite map_app, list_sum_app.
  destruct n; simpl; lia.
Qed.

Definition walk (tree : node) : list node := walk_queue [tree].

(** [inside tree n]: [n] is [tree] or lies in it, however deep. *)
Inductive inside (tree : node) : node -> Prop :=
| inside_root : inside tree tree
| inside_child (n c : node) :
    inside tree n -> In c (iter_child_nodes n) -> inside tree c.

(** ** Signatures *)

(** A callable is recorded as a string, a class as the dictionary of its
    methods. *)
Inductive Signature : Type :=
| FuncSig (text : string)
| ClassSig (methods : dict string).

Definition FileSignatureSet : Type := dict Signature.
Definition Snapshot : Type := dict FileSignatureSet.

(** [', '.join(args)] *)
Definition join_args (args : list string) : string := String.concat ", " args.

(** [get_function_signature]: [f"def {node.name}({', '.join(args)})"] *)
Definition get_function_signature (name : string) (args : list string) : string :=
  "def " ++ name ++ "(" ++ join_args args ++ ")".

(** [get_class_signature]: the [FunctionDef]s found directly in the class
    body, a later one of the same name replacing an earlier one. *)
Definition get_class_signature (body : list node) : dict string :=
  fold_left (fun methods child =>
               match child with
               | FunctionDef name args _ =>
                   set methods name (get_function_signature name args)
               | _ => methods
               end) body empty.

(** One turn of the loop of [extract_api]. *)
Definition record_node (api_elements : FileSignatureSet) (n : node)
  : FileSignatureSet :=
  match n with
  | FunctionDef name args _ =>
      set api_elements name (FuncSig (get_function_signature name args))
  | ClassDef name body =>
      set api_elements name (ClassSig (get_class_signature body))
  | Other _ => api_elements
  end.

(** The loop of [extract_api] over [ast.walk(tree)]. *)
Definition api_of_tree (tree : node) : FileSignatureSet :=
  fold_left record_node (walk tree) empty.

(** ** Exceptions and results *)

Inductive exn : Type :=
| SyntaxError (filename : string)      (* ast.parse *)
| ValueError (text : string)           (* semver.Version.parse *)
| BinasciiError                        (* base64.b64decode *)
| UnicodeDecodeError                   (* bytes.decode *)
| JSONDecodeError.                     (* json.loads *)

Inductive result (A : Type) : Type :=
| Ok (a : A)
| Raise (e : exn).
Arguments Ok {A} a.
Arguments Raise {A} e.

(** Code that changes a state [S] and may raise: the state reached is
    returned also when an exception leaves the code. *)
Definition M (S A : Type) : Type := S -> result A * S.

Definition ret {S A : Type} (a : A) : M S A := fun s => (Ok a, s).

Definition raise {S A : Type} (e : exn) : M S A := fun s => (Raise e, s).

Definition bind {S A B : Type} (m : M S A) (k : A -> M S B) : M S B :=
  fun s => match m s with
           | (Ok a, s') => k a s'
           | (Raise e, s') => (Raise e, s')
           end.

Definition lift {S A : Type} (r : result A) : M S A := fun s => (r, s).

Definition read {S : Type} : M S S := fun s => (Ok s, s).

Definition modify {S : Type} (f : S -> S) : M S unit := fun s => (Ok tt, f s).

Declare Scope py_scope.
Delimit Scope py_scope with py.
Notation "x <- m ;; k" := (bind m (fun x => k))
  (at level 61, m at next level, right associativity) : py_scope.
Notation "m ;;; k" := (bind m (fun _ => k))
  (at level 61, right associativity) : py_scope.

(** [for x in xs: body(x)] *)
Fixpoint for_each {S X : Type} (xs : list X) (body : X -> M S unit) : M S unit :=
  match xs with
  | [] => ret tt
  | x :: xs' => bind (body x) (fun _ => for_each xs' body)
  end.

(** ** Strings and paths *)

(** [s.startswith(p)] *)
Definition startswith (s p : string) : bool := String.prefix p s.

(** [s.endswith(suffix)] *)
Definition endswith (s suffix : string) : bool :=
  let n := String.length s in
  let m := String.length suffix in
  Nat.leb m n && String.eqb (String.substring (n - m) m s) suffix.

(** [os.path.join(a, b)] on a POSIX system. *)
Definition path_join (a b : string) : string :=
  if startswith b "/" then b
  else if String.eqb a "" || endswith a "/" then a ++ b
  else a ++ "/" ++ b.

(** ** The files

    A source file is kept as what [ast.parse] makes of its text: a tree,
    or the [SyntaxError] it raises.  A directory lists its files and its
    sub-directories in the order in which [os.walk] reports them. *)
Inductive source : Type :=
| Parsed (tree : node)
| Unparsable.

Inductive dir : Type :=
| Dir (files : list (string * source)) (subdirs : list (string * dir)).

(** [os.walk(top)], top down: the directory itself, then each
    sub-directory in turn.  Each step gives the directory path and its
    files. *)
Fixpoint os_walk (top : string) (d : dir) : list (string * list (string * source)) :=
  match d with
  | Dir files subdirs =>
      (top, files)
      :: (fix each (l : list (string * dir)) :=
            match l with
            | [] => []
            | (name, sub) :: l' => (os_walk (path_join top name) sub ++ each l')%list
            end) subdirs
  end.

(** ** pyproject.toml

    The document as [toml.load] returns it and [toml.dump] writes it.  Only
    the tables the inspector touches are spelled out; what else a table
    holds travels along in its [_rest]. *)
Record ast_inspector_table : Type := {
  api_signatures_entry : option string;
  last_changes_entry : option (list string) }.

Record tool_table : Type := {
  ast_inspector : option ast_inspector_table;
  tool_rest : list (string * string) }.

Record project_table : Type := {
  version : option string;
  project_rest : list (string * string) }.

Record toml : Type := {
  project : option project_table;
  tool : option tool_table;
  toml_rest : list (string * string) }.

(** The world outside the inspector: the file at [self.pyproject_file]
    ([None] when [os.path.exists] is false), the directory tree at
    [self.package_path], what was printed, and the documents handed to
    [toml.dump], latest first. *)
Record World : Type := {
  pyproject : option toml;
  package : dir;
  stdout : list string;
  dumped : list toml }.

Definition print (line : string) (w : World) : World :=
  {| pyproject := pyproject w; package := package w;
     stdout := (stdout w ++ [line])%list; dumped := dumped w |}.

(** [with open(self.pyproject_file, "w") as f: toml.dump(data, f)] *)
Definition write_pyproject (data : toml) (w : World) : World :=
  {| pyproject := Some data; package := package w;
     stdout := stdout w; dumped := data :: dumped w |}.

(** ** The version library *)
Module Semver.

(** Modelled from the spec: the [semver] package is not part of the
    repository.  A version is the triple major.minor.patch of the
    specification's VersionTriple, read from and written to its canonical
    text without pre-release or build metadata; a bump raises one
    component and sets the lower ones to zero. *)
Record Version : Type := { major : N; minor : N; patch : N }.

(** [s.split(".")] *)
Fixpoint split_dots (s : string) : list string :=
  match s with
  | EmptyString => [EmptyString]
  | String c s' =>
      if Ascii.eqb c "."%char then EmptyString :: split_dots s'
      else match split_dots s' with
           | h :: t => String c h :: t
           | [] => [String c EmptyString]
           end
  end.

(** A zero followed by more characters. *)
Definition leading_zero (s : string) : bool :=
  match s with
  | String c (String _ _) => Ascii.eqb c "0"%char
  | _ => false
  end.

(** A numeric identifier: decimal digits, at least one, no leading zero. *)
Definition numeric (s : string) : option N :=
  if String.eqb s "" || leading_zero s then None
  else option_map N.of_uint (NilEmpty.uint_of_string s).

(** Modelled from the spec: [semver.Version.parse]; [None] stands for
    the [ValueError] it raises. *)
Definition parse (s : string) : option Version :=
  match split_dots s with
  | [a; b; c] =>
      match numeric a, numeric b, numeric c with
      | Some x, Some y, Some z => Some {| major := x; minor := y; patch := z |}
      | _, _, _ => None
      end
  | _ => None
  end.

Definition render (n : N) : string := NilEmpty.string_of_uint (N.to_uint n).

(** Modelled from the spec: [str(version)]. *)
Definition to_string (v : Version) : string :=
  render (major v) ++ "." ++ render (minor v) ++ "." ++ render (patch v).

(** Modelled from the spec: [bump_major], [bump_minor], [bump_patch]. *)
Definition bump_major (v : Version) : Version :=
  {| major := N.succ (major v); minor := 0; patch := 0 |}.

Definition bump_minor (v : Version) : Version :=
  {| major := major v; minor := N.succ (minor v); patch := 0 |}.

Definition bump_patch (v : Version) : Version :=
  {| major := major v; minor := minor v; patch := N.succ (patch v) |}.

End Semver.

(** ** The serialisation libraries

    [base64] and [json] are outside the repository: the inspector is
    written over any implementation of the six calls it makes.  Nothing is
    assumed about them. *)
Class Codec : Type := {
  json_dumps : Snapshot -> string;        (* json.dumps(obj) *)
  str_encode : string -> string;          (* str.encode() *)
  b64encode : string -> string;           (* base64.b64encode(b) *)
  bytes_decode : string -> result string; (* bytes.decode() *)
  b64decode : string -> result string;    (* base64.b64decode(s) *)
  json_loads : string -> result Snapshot  (* json.loads(s) *) }.

(** ** Comparing signatures: [!=] on a string or a dictionary *)

Definition signature_eqb (a b : Signature) : bool :=
  match a, b with
  | FuncSig x, FuncSig y => String.eqb x y
  | ClassSig x, ClassSig y => Dict.eqb String.eqb x y
  | _, _ => false
  end.

Definition file_api_eqb (a b : FileSignatureSet) : bool := Dict.eqb signature_eqb a b.

Definition snapshot_eqb (a b : Snapshot) : bool := Dict.eqb file_api_eqb a b.

(** ** Change records

    The three messages [detect_changes] appends, and their texts. *)
Inductive ChangeRecord : Type :=
| Added (key file : string)
| Changed (key file : string)
| Removed (key file : string).

(** The strings kept in [changes]. *)
Definition describe (c : ChangeRecord) : string :=
  match c with
  | Added key file => "Added " ++ key ++ " in " ++ file
  | Changed key file =>
      "Changed signature of " ++ key ++ " in " ++ file ++ ":" ++ String "010"%char EmptyString
  | Removed key file => "Removed " ++ key ++ " from " ++ file
  end.

(** The counters and the list of [detect_changes]. *)
Record Tally : Type := {
  major : nat;
  minor : nat;
  patch : nat;
  changes : list ChangeRecord }.

Definition count_added (key file : string) (t : Tally) : Tally :=
  {| major := major t; minor := S (minor t); patch := patch t;
     changes := (changes t ++ [Added key file])%list |}.

Definition count_changed (key file : string) (t : Tally) : Tally :=
  {| major := S (major t); minor := minor t; patch := patch t;
     changes := (changes t ++ [Changed key file])%list |}.

Definition count_removed (key file : string) (t : Tally) : Tally :=
  {| major := S (major t); minor := minor t; patch := patch t;
     changes := (changes t ++ [Removed key file])%list |}.

(** [for key in new_api: ...]; [new_sig] is [new_api[key]], the value the
    key stands with. *)
Definition visit_new_key (file : string) (old_api : FileSignatureSet)
  (t : Tally) (entry : string * Signature) : Tally :=
  let (key, new_sig) := entry in
  match get old_api key with
  | None => count_added key file t
  | Some old_sig =>
      if negb (signature_eqb new_sig old_sig) then count_changed key file t else t
  end.

(** [for key in old_api: ...] *)
Definition visit_old_key (file : string) (new_api : FileSignatureSet)
  (t : Tally) (entry : string * Signature) : Tally :=
  let (key, _) := entry in
  if negb (mem new_api key) then count_removed key file t else t.

(** The body of [for file, new_api in new_signatures.items()]. *)
Definition visit_file (old_signatures : Snapshot) (t : Tally)
  (entry : string * FileSignatureSet) : Tally :=
  let (file, new_api) := entry in
  let old_api := get_default old_signatures file empty in
  let t1 := fold_left (visit_new_key file old_api) new_api t in
  fold_left (visit_old_key file new_api) old_api t1.

Definition no_changes : Tally := {| major := 0; minor := 0; patch := 0; changes := [] |}.

(** The loops of [detect_changes]. *)
Definition classify (old_signatures new_signatures : Snapshot) : Tally :=
  fold_left (visit_file old_signatures) new_signatures no_changes.

(** [increment_version] *)
Definition increment_version (current_version : string) (major minor patch : nat)
  : result string :=
  match Semver.parse current_version with
  | None => Raise (ValueError current_version)
  | Some version =>
      let version :=
        if negb (Nat.eqb major 0) then Semver.bump_major version
        else if negb (Nat.eqb minor 0) then Semver.bump_minor version
        else if negb (Nat.eqb patch 0) then Semver.bump_patch version
        else version in
      Ok (Semver.to_string version)
  end.

(** [detect_changes] *)
Definition detect_changes (current_version : string)
  (old_signatures new_signatures : Snapshot) : result (string * list string) :=
  let t := classify old_signatures new_signatures in
  match increment_version current_version (major t) (minor t) (patch t) with
  | Ok new_version => Ok (new_version, map describe (changes t))
  | Raise e => Raise e
  end.

(** ** The inspector *)

(** The attributes of an [ASTVersionInspector].  [self.pyproject_file] is
    the path of the file kept in [pyproject] of the [World]. *)
Record ASTVersionInspector : Type := {
  package_path : string;
  current_version : string;
  api_signatures : Snapshot;
  dry_run : bool }.

(** [self.api_signatures[file_path] = api] *)
Definition store_api (file_path : string) (api : FileSignatureSet)
  (self : ASTVersionInspector) : ASTVersionInspector :=
  {| package_path := package_path self;
     current_version := current_version self;
     api_signatures := set (api_signatures self) file_path api;
     dry_run := dry_run self |}.

(** What a method sees and changes: the object and the world. *)
Definition State : Type := (ASTVersionInspector * World)%type.

Definition on_self (f : ASTVersionInspector -> ASTVersionInspector) : M State unit :=
  modify (fun st : State => (f (fst st), snd st)).

Definition on_world (f : World -> World) : M State unit :=
  modify (fun st : State => (fst st, f (snd st))).

(** [load_version] *)
Definition load_version (w : World) : string :=
  match pyproject w with
  | Some data =>
      match project data with
      | Some table =>
          match version table with
          | Some v => v
          | None => "0.1.0"
          end
      | None => "0.1.0"
      end
  | None => "0.1.0"
  end.

(** [extract_api]: [ast.parse] raises on a file that is not valid Python. *)
Definition extract_api (file_path : string) (text : source) : result FileSignatureSet :=
  match text with
  | Parsed tree => Ok (api_of_tree tree)
  | Unparsable => Raise (SyntaxError file_path)
  end.

(** [file.endswith(".py") and not file.startswith("_")] *)
Definition selected (file : string) : bool :=
  endswith file ".py" && negb (startswith file "_").

(** The body of the inner loop of [scan_package]. *)
Definition scan_file (root : string) (entry : string * source) : M State unit :=
  let (file, text) := entry in
  if selected file then
    let file_path := path_join root file in
    (api <- lift (extract_api file_path text) ;;
     on_self (store_api file_path api))%py
  else ret tt.

(** [scan_package] *)
Definition scan_package : M State unit :=
  (st <- read ;;
   for_each (os_walk (package_path (fst st)) (package (snd st)))
     (fun step => for_each (snd step) (scan_file (fst step))))%py.

Section Inspector.

Context {codec : Codec}.

(** [data.get("tool", {}).get("ast_inspector", {}).get("api_signatures", "")] *)
Definition encoded_signatures (data : toml) : string :=
  match tool data with
  | Some t =>
      match ast_inspector t with
      | Some a =>
          match api_signatures_entry a with
          | Some s => s
          | None => ""
          end
      | None => ""
      end
  | None => ""
  end.

(** [json.loads(base64.b64decode(encoded_signatures).decode())] *)
Definition decode_signatures (encoded : string) : result Snapshot :=
  match b64decode encoded with
  | Raise e => Raise e
  | Ok raw =>
      match bytes_decode raw with
      | Raise e => Raise e
      | Ok text => json_loads text
      end
  end.

(** [load_api_signatures] *)
Definition load_api_signatures (w : World) : result Snapshot :=
  match pyproject w with
  | Some data =>
      let encoded := encoded_signatures data in
      if negb (String.eqb encoded "") then decode_signatures encoded
      else Ok empty
  | None => Ok empty
  end.

(** [__init__]; [package_path] is taken as already absolute. *)
Definition init (package_path : string) (dry_run : bool) (w : World)
  : result ASTVersionInspector :=
  let current_version := load_version w in
  match load_api_signatures w with
  | Raise e => Raise e
  | Ok api_signatures =>
      Ok {| package_path := package_path;
            current_version := current_version;
            api_signatures := api_signatures;
            dry_run := dry_run |}
  end.

(** [base64.b64encode(json.dumps(self.api_signatures).encode()).decode()];
    the last [decode] is of ASCII text and cannot fail. *)
Definition encode_signatures (api : Snapshot) : string :=
  b64encode (str_encode (json_dumps api)).

(** The document [save_version] builds from [data] when it has a
    [project] table. *)
Definition updated_document (data : toml) (table : project_table)
  (new_version : string) (api : Snapshot) (changes : list string) : toml :=
  {| project := Some {| version := Some new_version;
                        project_rest := project_rest table |};
     tool := Some {| ast_inspector :=
                       Some {| api_signatures_entry := Some (encode_signatures api);
                               last_changes_entry := Some changes |};
                     tool_rest := match tool data with
                                  | Some t => tool_rest t
                                  | None => []
                                  end |};
     toml_rest := toml_rest data |}.

(** [for change in changes: print(f"- {change}")] *)
Definition print_changes (changes : list string) : M State unit :=
  for_each changes (fun change => on_world (print ("- " ++ change))).

(** [save_version] *)
Definition save_version (new_version : string) (changes : list string) : M State unit :=
  (st <- read ;;
   if dry_run (fst st) then
     on_world (print ("[Dry Run] Would update pyproject.toml to version " ++ new_version)) ;;;
     on_world (print "[Dry Run] Changes detected:") ;;;
     print_changes changes
   else
     match pyproject (snd st) with
     | Some data =>
         match project data with
         | Some table =>
             on_world (write_pyproject
                         (updated_document data table new_version
                            (api_signatures (fst st)) changes)) ;;;
             on_world (print ("Updated pyproject.toml to version " ++ new_version)) ;;;
             on_world (print "Changes detected:") ;;;
             print_changes changes
         | None => ret tt
         end
     | None => ret tt
     end)%py.

(** [run] *)
Definition run : M State unit :=
  (st0 <- read ;;
   let old_api := api_signatures (fst st0) in
   scan_package ;;;
   st <- read ;;
   let self := fst st in
   if negb (snapshot_eqb old_api (api_signatures self)) then
     r <- lift (detect_changes (current_version self) old_api (api_signatures self)) ;;
     on_world (print ("Updating version: " ++ current_version self ++ " -> " ++ fst r)) ;;;
     save_version (fst r) (snd r)
   else
     on_world (print "No changes detected in the public API."))%py.

(** The two commands of cli.py: build the inspector, then [run]. *)
Definition command (dry : bool) (package_path : string) (w : World) : result unit * World :=
  match init package_path dry w with
  | Raise e => (Raise e, w)
  | Ok self => let (r, st) := run (self, w) in (r, snd st)
  end.

Definition update : string -> World -> result unit * World := command false.

Definition check : string -> World -> result unit * World := command true.

End Inspector.

(** ** Vocabulary of the properties *)

(** The key and the signature [extract_api] records for a node. *)
Definition declaration (n : node) : option (string * Signature) :=
  match n with
  | FunctionDef name args _ => Some (name, FuncSig (get_function_signature name args))
  | ClassDef name body => Some (name, ClassSig (get_class_signature body))
  | Other _ => None
  end.

(** The name a [FunctionDef] or [ClassDef] declares. *)
Definition declared_name (n : node) : option string :=
  option_map fst (declaration n).

(** [n] is the statement that declares [name] with a plain [def] or with
    [class]: an [ast.FunctionDef] or an [ast.ClassDef] node of that name.
    No other node is one, an [async def] no more than the rest. *)
Definition plain_declaration (n : node) (name : string) : Prop :=
  (exists args body, n = FunctionDef name args body)
  \/ (exists body, n = ClassDef name body).

(** The declarations of a file, in the order [ast.walk] meets them. *)
Definition declarations (tree : node) : list (string * Signature) :=
  flat_map (fun n => match declaration n with Some d => [d] | None => [] end)
           (walk tree).

(** The methods [get_class_signature] sees in a class body, in order. *)
Definition methods_of (body : list node) : list (string * string) :=
  flat_map (fun child =>
              match child with
              | FunctionDef name args _ => [(name, get_function_signature name args)]
              | _ => []
              end) body.

(** Every declaration of [name] in the tree, at any depth, is recorded
    with the signature [s]; so it is when [name] is declared once. *)
Definition sole_signature (tree : node) (name : string) (s : Signature) : Prop :=
  forall n, inside tree n -> declared_name n = Some name ->
            declaration n = Some (name, s).

(** The class [cname] stands at top level of the file, [mname] is a
    function written directly in its body, and neither name is declared
    with another signature elsewhere in the file. *)
Definition declares_method (body : list node) (cname : string) (cbody : list node)
  (mname : string) (margs : list string) : Prop :=
  In (ClassDef cname cbody) body
  /\ (exists mbody, In (FunctionDef mname margs mbody) cbody)
  /\ sole_signature (Module body) cname (ClassSig (get_class_signature cbody))
  /\ sole_signature (Module body) mname
       (FuncSig (get_function_signature mname margs)).

(** ** Sample files *)

(** [def _helper(x): ...] *)
Definition private_function_file : node :=
  Module [FunctionDef "_helper" ["x"] []].

(** [def outer(): def inner(x): ...] and [class A: class B: def deep(self): ...] *)
Definition nested_file : node :=
  Module [FunctionDef "outer" [] [FunctionDef "inner" ["x"] []];
          ClassDef "A" [ClassDef "B" [FunctionDef "deep" ["self"] []]]].

(** [class C: def m(self, a): ...] *)
Definition method_file (args : list string) : node :=
  Module [ClassDef "C" [FunctionDef "m" args []]].

(** [class m: def m(self): ...] *)
Definition class_named_like_method_file : node :=
  Module [ClassDef "m" [FunctionDef "m" ["self"] []]].

(** [async def g(a): def inner(): ...] then [class C: async def m(self): ...] *)
Definition async_file : node :=
  Module [AsyncFunctionDef "g" ["a"] [FunctionDef "inner" [] []];
          ClassDef "C" [AsyncFunctionDef "m" ["self"] []]].

(** [class A: def run(self): ...] then [class B: def run(self, x): ...] *)
Definition two_classes_file : node :=
  Module [ClassDef "A" [FunctionDef "run" ["self"] []];
          ClassDef "B" [FunctionDef "run" ["self"; "x"] []]].

(** ** Vocabulary of the diff *)

(** The records counted in [major], and those counted in [minor]. *)
Definition is_breaking (c : ChangeRecord) : bool :=
  match c with
  | Added _ _ => false
  | Changed _ _ | Removed _ _ => true
  end.

Definition is_addition (c : ChangeRecord) : bool :=
  match c with
  | Added _ _ => true
  | Changed _ _ | Removed _ _ => false
  end.

(** The counters agree with the records. *)
Definition counted (t : Tally) : Prop :=
  major t = length (filter is_breaking (changes t))
  /\ minor t = length (filter is_addition (changes t))
  /\ patch t = 0.

(** What one turn of the loop over [new_api] appends. *)
Definition new_key_emits (file : string) (old_api : FileSignatureSet)
  (entry : string * Signature) (c : ChangeRecord) : Prop :=
  (get old_api (fst entry) = None /\ c = Added (fst entry) file)
  \/ (exists old_sig, get old_api (fst entry) = Some old_sig
                      /\ signature_eqb (snd entry) old_sig = false
                      /\ c = Changed (fst entry) file).

(** What one turn of the loop over [old_api] appends. *)
Definition old_key_emits (file : string) (new_api : FileSignatureSet)
  (entry : string * Signature) (c : ChangeRecord) : Prop :=
  mem new_api (fst entry) = false /\ c = Removed (fst entry) file.

(** What the visit of one file of [new_signatures] appends. *)
Definition file_emits (old_signatures : Snapshot)
  (entry : string * FileSignatureSet) (c : ChangeRecord) : Prop :=
  let old_api := get_default old_signatures (fst entry) empty in
  (exists e, In e (snd entry) /\ new_key_emits (fst entry) old_api e c)
  \/ (exists e, In e old_api /\ old_key_emits (fst entry) (snd entry) e c).

(** ** Sample snapshots *)

Definition snapshot_with_foo : Snapshot :=
  [("pkg/f.py", [("foo", FuncSig "def foo(a)")])].

Definition snapshot_without_foo : Snapshot := [("pkg/f.py", [])].


(** ** Vocabulary of the scan *)

(** The files [scan_package] opens, with their paths, in the order of the
    two loops. *)
Definition selected_files (top : string) (d : dir) : list (string * source) :=
  flat_map (fun step =>
              map (fun entry => (path_join (fst step) (fst entry), snd entry))
                  (filter (fun entry => selected (fst entry)) (snd step)))
           (os_walk top d).

Definition selected_paths (top : string) (d : dir) : list string :=
  map fst (selected_files top d).

(** The path of the first file that does not parse. *)
Fixpoint first_unparsable (l : list (string * source)) : option string :=
  match l with
  | [] => None
  | (path, Parsed _) :: l' => first_unparsable l'
  | (path, Unparsable) :: _ => Some path
  end.

(** The signature sets extracted before that file is met. *)
Fixpoint parsed_prefix (l : list (string * source)) : list (string * FileSignatureSet) :=
  match l with
  | [] => []
  | (path, Parsed tree) :: l' => (path, api_of_tree tree) :: parsed_prefix l'
  | (path, Unparsable) :: _ => []
  end.

Definition with_api_signatures (self : ASTVersionInspector) (api : Snapshot)
  : ASTVersionInspector :=
  {| package_path := package_path self;
     current_version := current_version self;
     api_signatures := api;
     dry_run := dry_run self |}.

(** Nothing but [stdout] differs between the two worlds. *)
Definition same_files (w w' : World) : Prop :=
  pyproject w' = pyproject w /\ dumped w' = dumped w /\ package w' = package w.

(** One file of the scan, once selected. *)
Definition scan_selected (entry : string * source) : M State unit :=
  bind (lift (extract_api (fst entry) (snd entry)))
       (fun api => on_self (store_api (fst entry) api)).

(** ** Sample packages *)

(** pyproject.toml holding [[project] version = "1.0.0"] and nothing else. *)
Definition sample_document : toml :=
  {| project := Some {| version := Some "1.0.0"; project_rest := [] |};
     tool := None;
     toml_rest := [] |}.

(** The package /pkg with the single file a.py, [def foo(a): ...]. *)
Definition sample_package : dir :=
  Dir [("a.py", Parsed (Module [FunctionDef "foo" ["a"] []]))] [].

(** The same package with a second file that is not valid Python. *)
Definition broken_package : dir :=
  Dir [("a.py", Parsed (Module [FunctionDef "foo" ["a"] []]));
       ("b.py", Unparsable)] [].

Definition sample_world (store : option toml) (d : dir) : World :=
  {| pyproject := store; package := d; stdout := []; dumped := [] |}.

(** An inspector of /pkg that has loaded the snapshot [api]. *)
Definition sample_inspector (api : Snapshot) (dry : bool) : ASTVersionInspector :=
  {| package_path := "/pkg"; current_version := "1.0.0";
     api_signatures := api; dry_run := dry |}.

(** The snapshot stored when /pkg still held gone.py. *)
Definition stale_snapshot : Snapshot :=
  [("/pkg/gone.py", [("bar", FuncSig "def bar()")])].

(** ** A codec to run the examples

    An implementation of [Codec] for snapshots whose strings are plain
    ASCII, so that the model can be run on sample packages.  JSON is written
    the way [json.dumps] writes it by default and read back for objects and
    strings only; Base64 is that of RFC 4648, and the decoder takes its
    canonical form only (the library also drops characters that are not
    in the alphabet).  No property below depends on it. *)
Module PlainCodec.

Definition dquote : ascii := "034"%char.
Definition backslash : ascii := "092"%char.

Fixpoint escape (s : string) : string :=
  match s with
  | EmptyString => EmptyString
  | String c rest =>
      if Ascii.eqb c dquote || Ascii.eqb c backslash
      then String backslash (String c (escape rest))
      else String c (escape rest)
  end.

Definition quote (s : string) : string :=
  String dquote (escape s ++ String dquote EmptyString).

Definition dump_object {V : Type} (dump_value : V -> string) (d : dict V) : string :=
  "{" ++ String.concat ", " (map (fun kv => quote (fst kv) ++ ": " ++ dump_value (snd kv)) d)
      ++ "}".

Definition dump_signature (s : Signature) : string :=
  match s with
  | FuncSig text => quote text
  | ClassSig methods => dump_object quote methods
  end.

Definition dumps (api : Snapshot) : string :=
  dump_object (dump_object dump_signature) api.

(** The JSON values a snapshot is made of. *)
Inductive json : Type :=
| JString (s : string)
| JObject (members : list (string * json)).

Definition is_space (c : ascii) : bool :=
  Ascii.eqb c " "%char || Ascii.eqb c "009"%char
  || Ascii.eqb c "010"%char || Ascii.eqb c "013"%char.

Fixpoint skip_spaces (s : string) : string :=
  match s with
  | EmptyString => EmptyString
  | String c rest => if is_space c then skip_spaces rest else s
  end.

(** The rest of a string literal, its opening quote read: the text and
    what follows the closing quote. *)
Fixpoint read_string (s : string) : option (string * string) :=
  match s with
  | EmptyString => None
  | String c rest =>
      if Ascii.eqb c dquote then Some (EmptyString, rest)
      else if Ascii.eqb c backslash then
        match rest with
        | String e rest' =>
            if Ascii.eqb e dquote || Ascii.eqb e backslash then
              match read_string rest' with
              | Some (text, r) => Some (String e text, r)
              | None => None
              end
            else None
        | EmptyString => None
        end
      else
        match read_string rest with
        | Some (text, r) => Some (String c text, r)
        | None => None
        end
  end.

(** [read_value] reads a value, [read_members] the members of an object
    up to its closing brace. *)
Fixpoint read_value (fuel : nat) (s : string) : option (json * string) :=
  match fuel with
  | 0 => None
  | S fuel' =>
      match skip_spaces s with
      | EmptyString => None
      | String c rest =>
          if Ascii.eqb c dquote then
            match read_string rest with
            | Some (text, r) => Some (JString text, r)
            | None => None
            end
          else if Ascii.eqb c "{"%char then
            match skip_spaces rest with
            | EmptyString => None
            | String c' rest' =>
                if Ascii.eqb c' "}"%char then Some (JObject [], rest')
                else match read_members fuel' rest with
                     | Some (members, r) => Some (JObject members, r)
                     | None => None
                     end
            end
          else None
      end
  end
with read_members (fuel : nat) (s : string) : option (list (string * json) * string) :=
  match fuel with
  | 0 => None
  | S fuel' =>
      match skip_spaces s with
      | EmptyString => None
      | String c rest =>
          if Ascii.eqb c dquote then
            match read_string rest with
            | None => None
            | Some (key, r1) =>
                match skip_spaces r1 with
                | EmptyString => None
                | String colon r2 =>
                    if Ascii.eqb colon ":"%char then
                      match read_value fuel' r2 with
                      | None => None
                      | Some (value, r3) =>
                          match skip_spaces r3 with
                          | EmptyString => None
                          | String sep r4 =>
                              if Ascii.eqb sep "}"%char then Some ([(key, value)], r4)
                              else if Ascii.eqb sep ","%char then
                                match read_members fuel' r4 with
                                | Some (members, r) => Some ((key, value) :: members, r)
                                | None => None
                                end
                              else None
                          end
                      end
                    else None
                end
            end
          else None
      end
  end.

(** The members of an object, each value converted, as a dictionary. *)
Fixpoint to_dict {V : Type} (convert : json -> option V) (members : list (string * json))
  : option (dict V) :=
  match members with
  | [] => Some []
  | (key, value) :: rest =>
      match convert value, to_dict convert rest with
      | Some v, Some d => Some ((key, v) :: d)
      | _, _ => None
      end
  end.

Definition to_text (j : json) : option string :=
  match j with JString s => Some s | JObject _ => None end.

Definition to_signature (j : json) : option Signature :=
  match j with
  | JString s => Some (FuncSig s)
  | JObject members =>
      option_map (fun d => ClassSig (assign_all empty d)) (to_dict to_text members)
  end.

Definition to_file_api (j : json) : option FileSignatureSet :=
  match j with
  | JString _ => None
  | JObject members => option_map (assign_all empty) (to_dict to_signature members)
  end.

Definition to_snapshot (j : json) : option Snapshot :=
  match j with
  | JString _ => None
  | JObject members => option_map (assign_all empty) (to_dict to_file_api members)
  end.

(** A document that is not a snapshot is refused like one that is not
    JSON. *)
Definition loads (text : string) : result Snapshot :=
  match read_value (S (String.length text)) text with
  | Some (j, rest) =>
      match skip_spaces rest, to_snapshot j with
      | EmptyString, Some api => Ok api
      | _, _ => Raise JSONDecodeError
      end
  | None => Raise JSONDecodeError
  end.

Definition alphabet : string :=
  "ABCDEFGHIJKLMNOPQRSTUVWXYZabcdefghijklmnopqrstuvwxyz0123456789+/".

Definition digit (i : nat) : ascii :=
  match String.get i alphabet with Some c => c | None => "="%char end.

Fixpoint value_in (digits : string) (c : ascii) : option nat :=
  match digits with
  | EmptyString => None
  | String d rest => if Ascii.eqb d c then Some 0 else option_map S (value_in rest c)
  end.

Fixpoint encode_bytes (l : list nat) : string :=
  match l with
  | [] => EmptyString
  | [a] => String (digit (a / 4)) (String (digit (a mod 4 * 16)) "==")
  | [a; b] =>
      String (digit (a / 4)) (String (digit (a mod 4 * 16 + b / 16))
        (String (digit (b mod 16 * 4)) "="))
  | a :: b :: c :: rest =>
      String (digit (a / 4)) (String (digit (a mod 4 * 16 + b / 16))
        (String (digit (b mod 16 * 4 + c / 64)) (String (digit (c mod 64))
          (encode_bytes rest))))
  end.

Definition encode (s : string) : string :=
  encode_bytes (map nat_of_ascii (list_ascii_of_string s)).

Fixpoint decode_digits (l : list ascii) : option (list nat) :=
  match l with
  | [] => Some []
  | c1 :: c2 :: c3 :: c4 :: rest =>
      match value_in alphabet c1, value_in alphabet c2 with
      | Some a, Some b =>
          match rest, Ascii.eqb c3 "="%char, Ascii.eqb c4 "="%char with
          | [], true, true => Some [a * 4 + b / 16]
          | _, _, _ =>
              match value_in alphabet c3 with
              | None => None
              | Some c =>
                  match rest, Ascii.eqb c4 "="%char with
                  | [], true => Some [a * 4 + b / 16; b mod 16 * 16 + c / 4]
                  | _, _ =>
                      match value_in alphabet c4, decode_digits rest with
                      | Some d, Some bytes =>
                          Some (a * 4 + b / 16 :: b mod 16 * 16 + c / 4
                                :: c mod 4 * 64 + d :: bytes)
                      | _, _ => None
                      end
                  end
              end
          end
      | _, _ => None
      end
  | _ => None
  end.

Definition decode (s : string) : result string :=
  match decode_digits (list_ascii_of_string s) with
  | Some bytes => Ok (string_of_list_ascii (map ascii_of_nat bytes))
  | None => Raise BinasciiError
  end.

End PlainCodec.

#[export] Instance plain_codec : Codec := {|
  json_dumps := PlainCodec.dumps;
  str_encode := fun s => s;
  b64encode := PlainCodec.encode;
  bytes_decode := fun b => Ok b;
  b64decode := PlainCodec.decode;
  json_loads := PlainCodec.loads |}.

(** ** Vocabulary of the store *)

(** [project.version] of a document. *)
Definition stored_version (data : toml) : option string :=
  match project data with
  | Some table => version table
  | None => None
  end.

(** [tool.ast_inspector] of a document. *)
Definition stored_inspector_table (data : toml) : option ast_inspector_table :=
  match tool data with
  | Some t => ast_inspector t
  | None => None
  end.

(** pyproject.toml whose [api_signatures] is [text]. *)
Definition document_with_signatures (text : string) : toml :=
  {| project := Some {| version := Some "1.0.0"; project_rest := [] |};
     tool := Some {| ast_inspector :=
                       Some {| api_signatures_entry := Some text;
                               last_changes_entry := Some [] |};
                     tool_rest := [] |};
     toml_rest := [] |}.

(** pyproject.toml is missing, or holds no [project] table. *)
Definition stored_version_table_missing (w : World) : Prop :=
  pyproject w = None \/ exists data, pyproject w = Some data /\ project data = None.

(** ** Well-formed dictionaries

    A Python dictionary holds a key once.  The lists that stand for
    dictionaries keep that form under every operation of the code; where a
    property needs it of a snapshot that was loaded, it is asked for. *)
Definition well_formed_signature (s : Signature) : Prop :=
  match s with
  | FuncSig _ => True
  | ClassSig methods => NoDup (keys methods)
  end.

Definition well_formed_api (api : FileSignatureSet) : Prop :=
  NoDup (keys api) /\ Forall (fun kv => well_formed_signature (snd kv)) api.

Definition well_formed_snapshot (s : Snapshot) : Prop :=
  NoDup (keys s) /\ Forall (fun kv => well_formed_api (snd kv)) s.

(** [n] lies below the top level of the file: in the body of a top-level
    statement, or deeper. *)
Definition nested_in (body : list node) (n : node) : Prop :=
  exists top child, In top body /\ In child (iter_child_nodes top) /\ inside child n.

(** [def run(x): ...] then [class C: def run(self): ...] *)
Definition shadowed_function_file : list node :=
  [FunctionDef "run" ["x"] []; ClassDef "C" [FunctionDef "run" ["self"] []]].

(** The counters added and the records put end to end. *)
Definition combine (a b : Tally) : Tally :=
  {| major := major a + major b;
     minor := minor a + minor b;
     patch := patch a + patch b;
     changes := (changes a ++ changes b)%list |}.

(** The version [detect_changes] derives from a list of records. *)
Definition bump_for (records : list ChangeRecord) (v : Semver.Version) : Semver.Version :=
  if existsb is_breaking records then Semver.bump_major v
  else if existsb is_addition records then Semver.bump_minor v
  else v.

(** The world with [lines] printed after what was printed before. *)
Definition printed (lines : list string) (w : World) : World :=
  {| pyproject := pyproject w; package := package w;
     stdout := (stdout w ++ lines)%list; dumped := dumped w |}.

(** The package /pkg with a.py as before and a file without declarations. *)
Definition package_with_empty_file : dir :=
  Dir [("a.py", Parsed (Module [FunctionDef "foo" ["a"] []]));
       ("empty.py", Parsed (Module []))] [].

(** [directory_at top d root files]: walking from [top], the tree [d]
    holds, at any depth, a directory of path [root] with the files
    [files]. *)
Inductive directory_at : string -> dir -> string -> list (string * source) -> Prop :=
| directory_here (top : string) (files : list (string * source))
    (subdirs : list (string * dir)) :
    directory_at top (Dir files subdirs) top files
| directory_below (top name : string) (files : list (string * source))
    (subdirs : list (string * dir)) (sub : dir)
    (root : string) (files' : list (string * source)) :
    In (name, sub) subdirs ->
    directory_at (path_join top name) sub root files' ->
    directory_at top (Dir files subdirs) root files'.

(** The package /pkg with a sub-package: /pkg/a.py, /pkg/sub/__init__.py
    and /pkg/sub/b.py. *)
Definition package_with_subpackage : dir :=
  Dir [("a.py", Parsed (Module [FunctionDef "foo" ["a"] []]))]
      [("sub", Dir [("__init__.py", Parsed (Module [FunctionDef "hidden" [] []]));
                    ("b.py", Parsed (Module [ClassDef "B" []]))] [])].

(** * Properties *)

(** ** Dictionaries *)
Section DictFacts.

Context {V : Type}.
Implicit Types (d : dict V) (k : string) (v : V).

Lemma get_set_same d k v : get (set d k v) k = Some v.
Proof.
  induction d as [|[k' v'] d IH]; simpl.
  - now rewrite String.eqb_refl.
  - destruct (String.eqb k k') eqn:E; simpl; rewrite E; auto.
Qed.

Lemma get_set_other d k k' v : k <> k' -> get (set d k v) k' = get d k'.
Proof.
  intros Hne. induction d as [|[k0 v0] d IH]; simpl.
  - destruct (String.eqb_spec k' k); congruence.
  - destruct (String.eqb_spec k k0) as [->|Hk]; simpl.
    + destruct (String.eqb_spec k' k0); congruence.
    + now rewrite IH.
Qed.

Lemma keys_set d k v k' : In k' (keys (set d k v)) <-> k' = k \/ In k' (keys d).
Proof.
  unfold keys. induction d as [|[k0 v0] d IH]; simpl.
  - intuition.
  - destruct (String.eqb_spec k k0) as [->|Hk]; simpl; intuition.
Qed.

Lemma get_some_in d k v : get d k = Some v -> In (k, v) d.
Proof.
  induction d as [|[k0 v0] d IH]; simpl; [discriminate|].
  destruct (String.eqb_spec k k0) as [->|Hk].
  - intros [= ->]. now left.
  - intros H. right. auto.
Qed.

Lemma get_none_iff d k : get d k = None <-> ~ In k (keys d).
Proof.
  unfold keys. induction d as [|[k0 v0] d IH]; simpl.
  - intuition.
  - destruct (String.eqb_spec k k0) as [->|Hk].
    + split; [discriminate | intros H; exfalso; apply H; now left].
    + rewrite IH. intuition congruence.
Qed.

Lemma mem_true_iff d k : mem d k = true <-> In k (keys d).
Proof.
  unfold mem. destruct (get d k) eqn:E.
  - split; [intros _ | reflexivity].
    apply get_some_in in E. apply (in_map fst) in E. exact E.
  - apply get_none_iff in E. split; [discriminate | contradiction].
Qed.

Lemma mem_false_iff d k : mem d k = false <-> ~ In k (keys d).
Proof. rewrite <- mem_true_iff. destruct (mem d k); intuition congruence. Qed.

Lemma keys_assign_all l : forall d k,
  In k (keys (assign_all d l)) <-> In k (keys d) \/ In k (map fst l).
Proof.
  unfold assign_all. induction l as [|[k0 v0] l IH]; intros d k; simpl.
  - intuition.
  - rewrite IH, keys_set. intuition.
Qed.

Lemma get_assign_all_absent l : forall d k,
  ~ In k (map fst l) -> get (assign_all d l) k = get d k.
Proof.
  unfold assign_all. induction l as [|[k0 v0] l IH]; intros d k Hk; simpl in *.
  - reflexivity.
  - rewrite IH by tauto. apply get_set_other. tauto.
Qed.

(** A key assigned in the run ends bound to one of the values the run
    gave it. *)
Lemma get_assign_all_present l : forall d k,
  In k (map fst l) -> exists v, In (k, v) l /\ get (assign_all d l) k = Some v.
Proof.
  unfold assign_all. induction l as [|[k0 v0] l IH]; intros d k Hk; simpl in *.
  - contradiction.
  - destruct (in_dec string_dec k (map fst l)) as [Hin|Hout].
    + destruct (IH (set d k0 v0) k Hin) as (v & Hv & Hg). exists v. auto.
    + destruct Hk as [->|Hk]; [|contradiction].
      exists v0. split; [now left|].
      fold (assign_all (set d k v0) l).
      rewrite get_assign_all_absent by assumption. apply get_set_same.
Qed.

End DictFacts.

(** ** The traversal *)

Lemma walk_queue_app (xs : list node) : forall ys,
  walk_queue (xs ++ ys) = (xs ++ walk_queue (ys ++ flat_map iter_child_nodes xs))%list.
Proof.
  induction xs as [|x xs IH]; intros ys; simpl.
  - now rewrite app_nil_r.
  - simp walk_queue. f_equal. rewrite <- app_assoc, IH. now rewrite <- app_assoc.
Qed.

(** The queue is served one level of the tree after the other. *)
Lemma walk_queue_levels (todo : list node) :
  walk_queue todo = (todo ++ walk_queue (flat_map iter_child_nodes todo))%list.
Proof.
  rewrite <- (app_nil_r todo) at 1. rewrite walk_queue_app. reflexivity.
Qed.

Lemma walk_queue_incl (todo : list node) (n : node) :
  In n todo -> In n (walk_queue todo).
Proof. intros H. rewrite walk_queue_levels. apply in_or_app. now left. Qed.

Lemma walk_queue_children (todo : list node) : forall n c,
  In n (walk_queue todo) -> In c (iter_child_nodes n) -> In c (walk_queue todo).
Proof.
  funelim (walk_queue todo); intros m c Hm Hc.
  - contradiction.
  - destruct Hm as [<-|Hm].
    + right. apply walk_queue_incl, in_or_app. now right.
    + right. eauto.
Qed.

Lemma inside_walk (tree n : node) : inside tree n -> In n (walk tree).
Proof.
  induction 1 as [|n c _ IH Hc].
  - apply walk_queue_incl. now left.
  - eapply walk_queue_children; eauto.
Qed.

Lemma walk_queue_inside (todo : list node) : forall n,
  In n (walk_queue todo) -> exists t, In t todo /\ inside t n.
Proof.
  funelim (walk_queue todo); intros m Hm.
  - contradiction.
  - destruct Hm as [<-|Hm].
    + exists n. split; [now left | constructor].
    + destruct (H m Hm) as (t & Ht & Hin).
      apply in_app_or in Ht. destruct Ht as [Ht|Ht].
      * exists t. split; [now right | assumption].
      * exists n. split; [now left|].
        clear - Ht Hin. induction Hin as [|x c _ IH Hc].
        -- eapply inside_child; [constructor | assumption].
        -- eapply inside_child; eassumption.
Qed.

Lemma walk_inside (tree n : node) : In n (walk tree) <-> inside tree n.
Proof.
  split; [|apply inside_walk].
  intros H. apply walk_queue_inside in H. destruct H as (t & [<-|[]] & Hin).
  exact Hin.
Qed.

(** ** The extractor *)

Lemma fold_record_node (l : list node) : forall api,
  fold_left record_node l api
  = assign_all api (flat_map (fun n => match declaration n with
                                       | Some d => [d]
                                       | None => []
                                       end) l).
Proof.
  unfold assign_all.
  induction l as [|n l IH]; intros api; simpl; [reflexivity|].
  rewrite IH. destruct n; reflexivity.
Qed.

Lemma api_of_tree_declarations (tree : node) :
  api_of_tree tree = assign_all empty (declarations tree).
Proof. apply fold_record_node. Qed.

Lemma get_class_signature_methods (body : list node) :
  get_class_signature body = assign_all empty (methods_of body).
Proof.
  unfold get_class_signature, methods_of, assign_all. generalize (@empty string).
  induction body as [|n body IH]; intros d; simpl; [reflexivity|].
  rewrite IH. destruct n; reflexivity.
Qed.

Lemma declarations_in (tree n : node) (name : string) (s : Signature) :
  In n (walk tree) -> declaration n = Some (name, s) ->
  In (name, s) (declarations tree).
Proof.
  intros Hn Hd. unfold declarations. apply in_flat_map.
  exists n. split; [assumption|]. rewrite Hd. now left.
Qed.

Lemma declarations_inv (tree : node) (name : string) (s : Signature) :
  In (name, s) (declarations tree) ->
  exists n, In n (walk tree) /\ declaration n = Some (name, s).
Proof.
  unfold declarations. rewrite in_flat_map. intros (n & Hn & Hd).
  exists n. split; [assumption|].
  destruct (declaration n) as [d|]; simpl in Hd; [|contradiction].
  destruct Hd as [->|[]]. reflexivity.
Qed.

(** The keys of the extracted set are the names declared anywhere in the
    tree. *)
Lemma api_keys (tree : node) (name : string) :
  In name (keys (api_of_tree tree))
  <-> exists n, inside tree n /\ declared_name n = Some name.
Proof.
  rewrite api_of_tree_declarations, keys_assign_all. simpl. split.
  - intros [[]|H]. apply in_map_iff in H. destruct H as ([k s] & <- & H).
    apply declarations_inv in H. destruct H as (n & Hn & Hd).
    exists n. split; [now apply walk_inside|].
    unfold declared_name. now rewrite Hd.
  - intros (n & Hn & Hd). right. unfold declared_name in Hd.
    destruct (declaration n) as [[k s]|] eqn:E; [|discriminate].
    simpl in Hd. injection Hd as ->.
    apply in_map_iff. exists (name, s). split; [reflexivity|].
    eapply declarations_in; [apply walk_inside|]; eassumption.
Qed.

Lemma inside_top_level (body : list node) (n : node) :
  In n body -> inside (Module body) n.
Proof. intros H. eapply inside_child; [constructor | exact H]. Qed.

(** The value bound to a declared name is the signature of one of the
    declarations of that name. *)
Lemma api_get_declared (tree : node) (name : string) :
  In name (map fst (declarations tree)) ->
  exists s, In (name, s) (declarations tree) /\ get (api_of_tree tree) name = Some s.
Proof.
  intros H. rewrite api_of_tree_declarations. now apply get_assign_all_present.
Qed.

Lemma methods_of_in (body : list node) (m text : string) :
  In (m, text) (methods_of body)
  <-> exists args b, In (FunctionDef m args b) body
                     /\ text = get_function_signature m args.
Proof.
  unfold methods_of. rewrite in_flat_map. split.
  - intros (child & Hc & Hin). destruct child; simpl in Hin; try contradiction.
    destruct Hin as [[= <- <-]|[]]. eauto.
  - intros (args & b & Hin & ->). eexists. split; [exact Hin|]. now left.
Qed.

Lemma class_signature_keys (body : list node) (m : string) :
  In m (keys (get_class_signature body))
  <-> exists args b, In (FunctionDef m args b) body.
Proof.
  rewrite get_class_signature_methods, keys_assign_all. simpl. split.
  - intros [[]|H]. apply in_map_iff in H. destruct H as ([k t] & <- & H).
    apply methods_of_in in H. destruct H as (args & b & H & _). eauto.
  - intros (args & b & H). right. apply in_map_iff.
    exists (m, get_function_signature m args). split; [reflexivity|].
    apply methods_of_in. eauto.
Qed.

Lemma sole_signature_get (tree n : node) (name : string) (s : Signature) :
  sole_signature tree name s -> inside tree n -> declared_name n = Some name ->
  get (api_of_tree tree) name = Some s.
Proof.
  intros Hsole Hn Hname.
  destruct (api_get_declared tree name) as (s' & Hin & Hget).
  - apply in_map_iff. exists (name, s). split; [reflexivity|].
    eapply declarations_in; [apply walk_inside; exact Hn | auto].
  - apply declarations_inv in Hin. destruct Hin as (n' & Hn' & Hd').
    apply walk_inside in Hn'.
    assert (Hs : declaration n' = Some (name, s)).
    { apply Hsole; [assumption|]. unfold declared_name. now rewrite Hd'. }
    congruence.
Qed.

(** A method is bound twice: in the mapping of its class and as a key of
    the file. *)
Lemma method_bound_twice (body : list node) (cname : string) (cbody : list node)
  (mname : string) (margs : list string) :
  declares_method body cname cbody mname margs ->
  get (api_of_tree (Module body)) cname = Some (ClassSig (get_class_signature cbody))
  /\ get (get_class_signature cbody) mname = Some (get_function_signature mname margs)
  /\ get (api_of_tree (Module body)) mname
     = Some (FuncSig (get_function_signature mname margs)).
Proof.
  intros (Hclass & (mbody & Hm) & Hsc & Hsm).
  assert (Hic : inside (Module body) (ClassDef cname cbody))
    by now apply inside_top_level.
  assert (Him : forall args b, In (FunctionDef mname args b) cbody ->
                               inside (Module body) (FunctionDef mname args b)).
  { intros args b H. eapply inside_child; [exact Hic | exact H]. }
  split; [|split].
  - eapply sole_signature_get; [exact Hsc | exact Hic | reflexivity].
  - rewrite get_class_signature_methods.
    destruct (get_assign_all_present (methods_of cbody) empty mname) as (t & Hin & Hget).
    + apply in_map_iff. exists (mname, get_function_signature mname margs).
      split; [reflexivity|]. apply methods_of_in. eauto.
    + rewrite Hget. apply methods_of_in in Hin.
      destruct Hin as (args & b & Hin & ->).
      specialize (Hsm _ (Him _ _ Hin) eq_refl). simpl in Hsm. congruence.
  - eapply sole_signature_get; [exact Hsm | apply (Him _ _ Hm) | reflexivity].
Qed.

Lemma plain_declaration_name (n : node) (name : string) :
  plain_declaration n name <-> declared_name n = Some name.
Proof.
  unfold plain_declaration, declared_name. split.
  - intros [(args & body & ->)|(body & ->)]; reflexivity.
  - destruct n as [k args body|k body|children]; simpl; intros [= <-]; eauto.
Qed.

(** C3 (amended): every top-level function declared with a plain [def]
    (an [ast.FunctionDef]) and every top-level class (an [ast.ClassDef])
    is a key of the set [extract_api] returns, whatever its name, a name
    that begins with an underscore included; the underscore test is made
    on file names only, and a file so named is not selected by the
    scan. *)
Theorem top_level_names_all_recorded (file_path : string) (body : list node)
  (n : node) (name rest : string) :
  In n body -> plain_declaration n name ->
  (exists api, extract_api file_path (Parsed (Module body)) = Ok api
               /\ In name (keys api))
  /\ selected (String "_" rest) = false.
Proof.
  intros Hn Hname. apply plain_declaration_name in Hname. split.
  - eexists. split; [reflexivity|]. apply api_keys.
    exists n. split; [now apply inside_top_level | assumption].
  - unfold selected, startswith. destruct rest; simpl; rewrite ?andb_false_r; reflexivity.
Qed.

Lemma top_level_names_all_recorded_witness :
  (exists api, extract_api "pkg/a.py" (Parsed private_function_file) = Ok api
               /\ In "_helper" (keys api))
  /\ selected "_a.py" = false.
Proof.
  apply (@top_level_names_all_recorded "pkg/a.py" _ (FunctionDef "_helper" ["x"] [])
           "_helper" "a.py").
  - simpl. now left.
  - left. exists ["x"], []. reflexivity.
Defined.

(** C3, as stated, fails: the file [def _helper(x): ...] gives the key
    [_helper]. *)
Lemma private_name_recorded :
  startswith "_helper" "_" = true
  /\ extract_api "pkg/a.py" (Parsed private_function_file)
     = Ok [("_helper", FuncSig "def _helper(x)")].
Proof. split; reflexivity. Qed.

(** C4 (amended): the extractor records the declarations of every level:
    a name is a key of the extracted set exactly when a function declared
    with a plain [def] (an [ast.FunctionDef]) or a class (an
    [ast.ClassDef]) of that name occurs somewhere in the tree, however
    deep; only the method mapping of a class is limited to the plain
    [def] functions written directly in its body. *)
Theorem every_level_recorded (file_path : string) (tree : node) :
  exists api, extract_api file_path (Parsed tree) = Ok api
  /\ (forall name, In name (keys api)
                   <-> exists n, inside tree n /\ plain_declaration n name)
  /\ (forall body m, In m (keys (get_class_signature body))
                     <-> exists args b, In (FunctionDef m args b) body).
Proof.
  eexists. split; [reflexivity|]. split.
  - intros name. rewrite api_keys. split; intros (n & Hn & Hd); exists n;
      (split; [exact Hn | now apply plain_declaration_name]).
  - intros body m. apply class_signature_keys.
Qed.

(** An [async def] gives no key and no method, and what is declared in
    its body is recorded like the rest. *)
Example async_def_not_recorded :
  extract_api "pkg/a.py" (Parsed async_file)
  = Ok [("C", ClassSig []); ("inner", FuncSig "def inner()")].
Proof. reflexivity. Qed.

(** C4, as stated, fails: a function defined in a function, and a class
    and a method lying in a class, are keys of the extracted set. *)
Lemma deeper_levels_recorded :
  extract_api "pkg/a.py" (Parsed nested_file)
  = Ok [("outer", FuncSig "def outer()");
        ("A", ClassSig []);
        ("inner", FuncSig "def inner(x)");
        ("B", ClassSig [("deep", "def deep(self)")]);
        ("deep", FuncSig "def deep(self)")].
Proof. reflexivity. Qed.

(** ** The diff classifier *)

Lemma fold_left_invariant {A X : Type} (P : A -> Prop) (f : A -> X -> A) :
  (forall a x, P a -> P (f a x)) ->
  forall l a, P a -> P (fold_left f l a).
Proof. intros Hf l. induction l; simpl; auto. Qed.

(** A loop whose every turn appends what [E] allows appends, in all, what
    [E] allows for one of its turns. *)
Lemma fold_left_changes {X : Type} (f : Tally -> X -> Tally)
  (E : X -> ChangeRecord -> Prop) :
  (forall t x c, In c (changes (f t x)) <-> In c (changes t) \/ E x c) ->
  forall l t c, In c (changes (fold_left f l t))
                <-> In c (changes t) \/ exists x, In x l /\ E x c.
Proof.
  intros Hf l. induction l as [|x l IH]; intros t c; simpl.
  - split; [auto | intros [H|(x & [] & _)]; exact H].
  - rewrite IH, Hf. split.
    + intros [[H|H]|(y & Hy & H)]; eauto 6.
    + intros [H|(y & [<-|Hy] & H)]; eauto 6.
Qed.

Lemma counted_added (k f : string) (t : Tally) : counted t -> counted (count_added k f t).
Proof.
  unfold counted. simpl. intros (Ha & Hb & Hc).
  rewrite !filter_app, !length_app. simpl. repeat split; lia.
Qed.

Lemma counted_changed (k f : string) (t : Tally) : counted t -> counted (count_changed k f t).
Proof.
  unfold counted. simpl. intros (Ha & Hb & Hc).
  rewrite !filter_app, !length_app. simpl. repeat split; lia.
Qed.

Lemma counted_removed (k f : string) (t : Tally) : counted t -> counted (count_removed k f t).
Proof.
  unfold counted. simpl. intros (Ha & Hb & Hc).
  rewrite !filter_app, !length_app. simpl. repeat split; lia.
Qed.

Create HintDb tally.
#[local] Hint Resolve counted_added counted_changed counted_removed : tally.

Lemma counted_visit_new_key file old_api t e :
  counted t -> counted (visit_new_key file old_api t e).
Proof.
  destruct e as [k s]. unfold visit_new_key.
  destruct (get old_api k); [destruct (negb _)|]; auto with tally.
Qed.

Lemma counted_visit_old_key file new_api t e :
  counted t -> counted (visit_old_key file new_api t e).
Proof.
  destruct e as [k s]. unfold visit_old_key.
  destruct (negb _); auto with tally.
Qed.

Lemma counted_visit_file old t e : counted t -> counted (visit_file old t e).
Proof.
  destruct e as [file new_api]. unfold visit_file. intros H.
  apply fold_left_invariant; [intros; now apply counted_visit_old_key|].
  apply fold_left_invariant; [intros; now apply counted_visit_new_key|].
  exact H.
Qed.

Lemma counted_classify (old new : Snapshot) : counted (classify old new).
Proof.
  unfold classify. apply fold_left_invariant.
  - intros; now apply counted_visit_file.
  - repeat split.
Qed.

Lemma changes_visit_new_key file old_api t e c :
  In c (changes (visit_new_key file old_api t e))
  <-> In c (changes t) \/ new_key_emits file old_api e c.
Proof.
  destruct e as [k s]. unfold visit_new_key, new_key_emits. simpl.
  destruct (get old_api k) as [old_sig|].
  - destruct (signature_eqb s old_sig) eqn:E; simpl.
    + split; [auto|]. intros [H|[[[=] _]|(o & [= <-] & H & _)]]; [exact H|congruence].
    + rewrite in_app_iff. simpl. split.
      * intros [H|[<-|[]]]; [auto|]. right. right. eauto.
      * intros [H|[[[=] _]|(o & _ & _ & ->)]]; auto.
  - simpl. rewrite in_app_iff. simpl. split.
    + intros [H|[<-|[]]]; auto.
    + intros [H|[[_ ->]|(o & [=] & _)]]; auto.
Qed.

Lemma changes_visit_old_key file new_api t e c :
  In c (changes (visit_old_key file new_api t e))
  <-> In c (changes t) \/ old_key_emits file new_api e c.
Proof.
  destruct e as [k s]. unfold visit_old_key, old_key_emits. simpl.
  destruct (mem new_api k); simpl.
  - split; [auto|]. intros [H|[[=] _]]. exact H.
  - rewrite in_app_iff. simpl. split.
    + intros [H|[<-|[]]]; auto.
    + intros [H|[_ ->]]; auto.
Qed.

Lemma changes_visit_file old t e c :
  In c (changes (visit_file old t e)) <-> In c (changes t) \/ file_emits old e c.
Proof.
  destruct e as [file new_api]. unfold visit_file, file_emits. simpl.
  rewrite (fold_left_changes _ (old_key_emits file new_api))
    by (intros; apply changes_visit_old_key).
  rewrite (fold_left_changes _ (new_key_emits file (get_default old file empty)))
    by (intros; apply changes_visit_new_key).
  tauto.
Qed.

(** The records of a diff are those of the visits of the files of [new]. *)
Lemma changes_classify (old new : Snapshot) (c : ChangeRecord) :
  In c (changes (classify old new))
  <-> exists e, In e new /\ file_emits old e c.
Proof.
  unfold classify.
  rewrite (fold_left_changes _ (file_emits old)) by (intros; apply changes_visit_file).
  simpl. tauto.
Qed.

Lemma removed_classify (old new : Snapshot) (key file : string) :
  In (Removed key file) (changes (classify old new))
  <-> exists new_api, In (file, new_api) new
                      /\ In key (keys (get_default old file empty))
                      /\ mem new_api key = false.
Proof.
  rewrite changes_classify. split.
  - intros ([f new_api] & Hin & [(e & _ & [[_ [=]]|(o & _ & _ & [=])])
                                |(e & He & Hm & [= -> ->])]).
    exists new_api. simpl in *. split; [assumption|]. split; [|assumption].
    apply in_map. exact He.
  - intros (new_api & Hin & Hk & Hm).
    apply in_map_iff in Hk. destruct Hk as ([k s] & <- & Hk).
    exists (file, new_api). split; [assumption|]. right.
    exists (k, s). split; [assumption|]. now split.
Qed.

Lemma changed_classify (old new : Snapshot) (file key : string)
  (new_api : FileSignatureSet) (new_sig old_sig : Signature) :
  In (file, new_api) new -> In (key, new_sig) new_api ->
  get (get_default old file empty) key = Some old_sig ->
  signature_eqb new_sig old_sig = false ->
  In (Changed key file) (changes (classify old new)).
Proof.
  intros Hf Hk Ho Hne. apply changes_classify.
  exists (file, new_api). split; [assumption|]. left.
  exists (key, new_sig). split; [assumption|]. right. eauto.
Qed.





(** ** Comparison of signatures *)

Lemma dict_eqb_false {V : Type} (veqb : V -> V -> bool) (a b : dict V)
  (k : string) (v v' : V) :
  In (k, v) a -> get b k = Some v' -> veqb v v' = false ->
  Dict.eqb veqb a b = false.
Proof.
  intros Hin Hget Hne. unfold Dict.eqb.
  destruct (forallb _ a) eqn:E; [|apply andb_false_r].
  rewrite forallb_forall in E. specialize (E _ Hin). simpl in E.
  rewrite Hget in E. congruence.
Qed.

(** C10 (amended): let a file hold, at top level, a class with a function
    m written with a plain [def] (an [ast.FunctionDef]) directly in its
    body, and let every plain [def] or [class] declaration of the file
    that bears the name of the class, or the name m, have the same
    signature as these two (so it is when each name is declared once).
    Then the extracted set holds m twice: in the method mapping bound to
    the class name, and as a key of its own bound to m's signature string;
    and when m's signature changes between two such versions of the file,
    the diff reports both the class and m as Changed. *)
Theorem method_recorded_twice (file cname mname : string)
  (body body' cbody cbody' : list node) (margs margs' : list string) :
  declares_method body cname cbody mname margs ->
  declares_method body' cname cbody' mname margs' ->
  get_function_signature mname margs <> get_function_signature mname margs' ->
  (get (api_of_tree (Module body)) cname = Some (ClassSig (get_class_signature cbody))
   /\ get (get_class_signature cbody) mname = Some (get_function_signature mname margs)
   /\ get (api_of_tree (Module body)) mname
      = Some (FuncSig (get_function_signature mname margs)))
  /\ (let records := changes (classify [(file, api_of_tree (Module body))]
                                       [(file, api_of_tree (Module body'))]) in
      In (Changed cname file) records /\ In (Changed mname file) records).
Proof.
  intros Hold Hnew Hne.
  destruct (method_bound_twice Hold) as (Hc & Hm & Hk).
  destruct (method_bound_twice Hnew) as (Hc' & Hm' & Hk').
  split; [auto|]. cbv zeta.
  assert (Hfile : forall k, get (get_default [(file, api_of_tree (Module body))] file empty) k
                            = get (api_of_tree (Module body)) k).
  { intros k. unfold get_default. simpl. now rewrite String.eqb_refl. }
  split.
  - eapply changed_classify.
    + now left.
    + apply get_some_in. exact Hc'.
    + rewrite Hfile. exact Hc.
    + cbn [signature_eqb]. eapply dict_eqb_false.
      * apply get_some_in. exact Hm'.
      * exact Hm.
      * apply String.eqb_neq. intros E. now apply Hne.
  - eapply changed_classify.
    + now left.
    + apply get_some_in. exact Hk'.
    + rewrite Hfile. exact Hk.
    + cbn [signature_eqb]. apply String.eqb_neq. intros E. now apply Hne.
Qed.

Lemma method_file_declares (args : list string) :
  declares_method [ClassDef "C" [FunctionDef "m" args []]]
                  "C" [FunctionDef "m" args []] "m" args.
Proof.
  split; [now left|]. split; [exists []; now left|].
  split; intros n Hn Hname; apply walk_inside in Hn;
    unfold walk in Hn; simp walk_queue in Hn; simpl in Hn;
    repeat (destruct Hn as [<-|Hn]; [try discriminate Hname; try reflexivity|]);
    contradiction.
Qed.

Lemma method_recorded_twice_witness :
  extract_api "pkg/c.py" (Parsed (method_file ["self"; "a"]))
  = Ok [("C", ClassSig [("m", "def m(self, a)")]); ("m", FuncSig "def m(self, a)")]
  /\ In (Changed "C" "pkg/c.py")
        (changes (classify [("pkg/c.py", api_of_tree (method_file ["self"; "a"]))]
                           [("pkg/c.py", api_of_tree (method_file ["self"; "a"; "b"]))]))
  /\ In (Changed "m" "pkg/c.py")
        (changes (classify [("pkg/c.py", api_of_tree (method_file ["self"; "a"]))]
                           [("pkg/c.py", api_of_tree (method_file ["self"; "a"; "b"]))])).
Proof.
  split; [reflexivity|].
  apply (@method_recorded_twice "pkg/c.py" "C" "m"
           [ClassDef "C" [FunctionDef "m" ["self"; "a"] []]]
           [ClassDef "C" [FunctionDef "m" ["self"; "a"; "b"] []]]
           [FunctionDef "m" ["self"; "a"] []]
           [FunctionDef "m" ["self"; "a"; "b"] []]
           ["self"; "a"] ["self"; "a"; "b"]).
  - apply method_file_declares.
  - apply method_file_declares.
  - discriminate.
Defined.

(** C10, as stated, fails: with [class A: def run(self)] followed by
    [class B: def run(self, x)], the key [run] of the file is bound to the
    signature of B's method, not to that of A's; and with
    [class m: def m(self)] the method takes the key of its class, whose
    method mapping is not in the set at all. *)
Lemma method_key_of_another_class :
  api_of_tree two_classes_file
  = [("A", ClassSig [("run", "def run(self)")]);
     ("B", ClassSig [("run", "def run(self, x)")]);
     ("run", FuncSig "def run(self, x)")]
  /\ get (api_of_tree two_classes_file) "run"
     <> Some (FuncSig (get_function_signature "run" ["self"]))
  /\ api_of_tree class_named_like_method_file = [("m", FuncSig "def m(self)")].
Proof. split; [reflexivity | split; [discriminate | reflexivity]]. Qed.

(** ** The version engine *)

Lemma split_dots_nonempty (s : string) : Semver.split_dots s <> [].
Proof.
  induction s as [|c s IH]; simpl; [discriminate|].
  destruct (Ascii.eqb c "."); [discriminate|].
  destruct (Semver.split_dots s); [contradiction | discriminate].
Qed.

Lemma concat_split_dots (s : string) : String.concat "." (Semver.split_dots s) = s.
Proof.
  induction s as [|c s IH]; simpl; [reflexivity|].
  pose proof (split_dots_nonempty s) as Hne.
  destruct (Ascii.eqb_spec c "."%char) as [->|Hc].
  - destruct (Semver.split_dots s) as [|h t]; [contradiction|].
    simpl in *. now rewrite IH.
  - destruct (Semver.split_dots s) as [|h t]; [contradiction|].
    simpl in *. destruct t; simpl in *; now rewrite <- IH.
Qed.

Lemma numeric_render (s : string) (x : N) :
  Semver.numeric s = Some x -> Semver.render x = s.
Proof.
  unfold Semver.numeric, Semver.render.
  destruct (String.eqb s "" || Semver.leading_zero s) eqn:E; [discriminate|].
  apply orb_false_elim in E. destruct E as [Hne Hlz].
  destruct (NilEmpty.uint_of_string s) as [d|] eqn:Hd; [|discriminate].
  intros [= <-]. rewrite DecimalN.Unsigned.to_of.
  apply NilEmpty.sus in Hd. subst s.
  assert (Hn : Decimal.unorm d = d).
  { destruct d as [|d|d|d|d|d|d|d|d|d|d]; simpl in *; try reflexivity; try discriminate.
    destruct d; simpl in *; try reflexivity; discriminate. }
  now rewrite Hn.
Qed.

Lemma to_string_parse (s : string) (v : Semver.Version) :
  Semver.parse s = Some v -> Semver.to_string v = s.
Proof.
  unfold Semver.parse, Semver.to_string. intros H.
  pose proof (concat_split_dots s) as Hs.
  destruct (Semver.split_dots s) as [|a [|b [|c [|]]]]; try discriminate.
  destruct (Semver.numeric a) eqn:Ha; try discriminate.
  destruct (Semver.numeric b) eqn:Hb; try discriminate.
  destruct (Semver.numeric c) eqn:Hc; try discriminate.
  injection H as <-. simpl.
  rewrite (numeric_render _ Ha), (numeric_render _ Hb), (numeric_render _ Hc).
  exact Hs.
Qed.

(** C5: for every tally and every valid current version, exactly one bump
    is applied: major above zero raises the major component and sets minor
    and patch to zero; otherwise minor above zero raises the minor
    component and sets patch to zero; otherwise patch above zero raises the
    patch component; otherwise the version is returned as it is, and its
    text is the current version string.  The size of the counters plays no
    part. *)
Theorem one_bump_by_precedence (current_version : string) (v : Semver.Version)
  (major minor patch : nat) :
  Semver.parse current_version = Some v ->
  increment_version current_version major minor patch
  = Ok (Semver.to_string
          (if (0 <? major)%nat then
             {| Semver.major := N.succ (Semver.major v);
                Semver.minor := 0; Semver.patch := 0 |}
           else if (0 <? minor)%nat then
             {| Semver.major := Semver.major v;
                Semver.minor := N.succ (Semver.minor v); Semver.patch := 0 |}
           else if (0 <? patch)%nat then
             {| Semver.major := Semver.major v;
                Semver.minor := Semver.minor v;
                Semver.patch := N.succ (Semver.patch v) |}
           else v))
  /\ Semver.to_string v = current_version.
Proof.
  intros Hv. split; [|now apply to_string_parse].
  unfold increment_version. rewrite Hv.
  destruct major, minor, patch; reflexivity.
Qed.

Lemma one_bump_by_precedence_witness :
  Semver.parse "1.4.9" = Some {| Semver.major := 1; Semver.minor := 4; Semver.patch := 9 |}
  /\ increment_version "1.4.9" 7 3 0 = Ok "2.0.0".
Proof.
  split; [reflexivity|].
  apply (@one_bump_by_precedence "1.4.9"
           {| Semver.major := 1; Semver.minor := 4; Semver.patch := 9 |} 7 3 0).
  reflexivity.
Defined.
(** ** The scan *)

Lemma bind_run {S A B : Type} (m : M S A) (k : A -> M S B) (s : S) :
  bind m k s = match m s with
               | (Ok a, s') => k a s'
               | (Raise e, s') => (Raise e, s')
               end.
Proof. reflexivity. Qed.

Lemma for_each_cons {S X : Type} (body : X -> M S unit) (x : X) (l : list X) (s : S) :
  for_each (x :: l) body s
  = match body x s with
    | (Ok _, s') => for_each l body s'
    | (Raise e, s') => (Raise e, s')
    end.
Proof. reflexivity. Qed.

Lemma for_each_app {S X : Type} (body : X -> M S unit) (l1 l2 : list X) (s : S) :
  for_each (l1 ++ l2) body s
  = match for_each l1 body s with
    | (Ok _, s') => for_each l2 body s'
    | (Raise e, s') => (Raise e, s')
    end.
Proof.
  revert s. induction l1 as [|x l1 IH]; intros s.
  - reflexivity.
  - simpl app. rewrite !for_each_cons.
    destruct (body x s) as [[[]|e] s']; [apply IH | reflexivity].
Qed.

Lemma scan_file_selected (root file : string) (text : source) (st : State) :
  selected file = true ->
  scan_file root (file, text) st = scan_selected (path_join root file, text) st.
Proof. intros E. unfold scan_file. now rewrite E. Qed.

Lemma scan_file_skipped (root file : string) (text : source) (st : State) :
  selected file = false -> scan_file root (file, text) st = (Ok tt, st).
Proof. intros E. unfold scan_file. now rewrite E. Qed.

Lemma scan_files_selected (root : string) (files : list (string * source)) (st : State) :
  for_each files (scan_file root) st
  = for_each (map (fun entry => (path_join root (fst entry), snd entry))
                  (filter (fun entry => selected (fst entry)) files))
             scan_selected st.
Proof.
  revert st. induction files as [|[file text] files IH]; intros st.
  - reflexivity.
  - rewrite for_each_cons. cbn [filter fst]. destruct (selected file) eqn:E.
    + rewrite scan_file_selected by assumption. cbn [map fst snd].
      rewrite for_each_cons.
      destruct (scan_selected _ st) as [[[]|e] st']; [apply IH | reflexivity].
    + rewrite scan_file_skipped by assumption. apply IH.
Qed.

Lemma scan_steps_selected (steps : list (string * list (string * source))) (st : State) :
  for_each steps (fun step => for_each (snd step) (scan_file (fst step))) st
  = for_each (flat_map (fun step =>
                map (fun entry => (path_join (fst step) (fst entry), snd entry))
                    (filter (fun entry => selected (fst entry)) (snd step))) steps)
             scan_selected st.
Proof.
  revert st. induction steps as [|[root files] steps IH]; intros st.
  - reflexivity.
  - rewrite for_each_cons. cbn [flat_map fst snd]. rewrite for_each_app.
    rewrite scan_files_selected.
    destruct (for_each _ scan_selected st) as [[[]|e] st']; [apply IH | reflexivity].
Qed.

Lemma with_api_signatures_same (self : ASTVersionInspector) :
  with_api_signatures self (api_signatures self) = self.
Proof. now destruct self. Qed.

Lemma scan_selected_all (l : list (string * source)) :
  forall (self : ASTVersionInspector) (w : World),
  for_each l scan_selected (self, w)
  = (match first_unparsable l with
     | None => Ok tt
     | Some path => Raise (SyntaxError path)
     end,
     (with_api_signatures self (assign_all (api_signatures self) (parsed_prefix l)), w)).
Proof.
  induction l as [|[path [tree|]] l IH]; intros self w.
  - simpl. now rewrite with_api_signatures_same.
  - rewrite for_each_cons. unfold scan_selected at 1.
    cbn [fst snd extract_api]. unfold bind, lift, on_self, modify. cbn [fst snd].
    rewrite IH. reflexivity.
  - rewrite for_each_cons. unfold scan_selected at 1.
    cbn [fst snd extract_api]. unfold bind, lift. simpl.
    now rewrite with_api_signatures_same.
Qed.

(** [scan_package] in closed form: the outcome, the object and the world
    it leaves. *)
Lemma scan_package_closed (self : ASTVersionInspector) (w : World) :
  scan_package (self, w)
  = (match first_unparsable (selected_files (package_path self) (package w)) with
     | None => Ok tt
     | Some path => Raise (SyntaxError path)
     end,
     (with_api_signatures self
        (assign_all (api_signatures self)
           (parsed_prefix (selected_files (package_path self) (package w)))), w)).
Proof.
  unfold scan_package, bind, read. simpl.
  rewrite scan_steps_selected. apply scan_selected_all.
Qed.

Lemma first_unparsable_none (l : list (string * source)) :
  first_unparsable l = None -> map fst (parsed_prefix l) = map fst l.
Proof.
  induction l as [|[path [tree|]] l IH]; simpl; intros H.
  - reflexivity.
  - now rewrite IH.
  - discriminate.
Qed.

Lemma first_unparsable_some (l : list (string * source)) (path : string) :
  In (path, Unparsable) l -> exists p, first_unparsable l = Some p /\ In (p, Unparsable) l.
Proof.
  induction l as [|[q [tree|]] l IH]; simpl; intros H.
  - contradiction.
  - destruct H as [[=]|H]. destruct (IH H) as (p & Hp & Hin). eauto.
  - exists q. auto.
Qed.

Lemma parsed_prefix_incl (l : list (string * source)) (path : string) :
  In path (map fst (parsed_prefix l)) -> In path (map fst l).
Proof.
  induction l as [|[q [tree|]] l IH]; simpl; intuition.
Qed.

(** C2 (amended): after a scan that raises no error, the file keys of the
    snapshot are the keys of the previously loaded snapshot together with
    the eligible source files the scan found; a key of the loaded snapshot
    whose file is no longer found stays in the snapshot used for the diff
    and for persistence, bound to the signature set it had. *)
Theorem scan_adds_to_loaded_snapshot (self self' : ASTVersionInspector) (w w' : World) :
  scan_package (self, w) = (Ok tt, (self', w')) ->
  (forall path,
      In path (keys (api_signatures self'))
      <-> In path (keys (api_signatures self))
          \/ In path (selected_paths (package_path self) (package w)))
  /\ (forall path,
         ~ In path (selected_paths (package_path self) (package w)) ->
         get (api_signatures self') path = get (api_signatures self) path).
Proof.
  rewrite scan_package_closed.
  destruct (first_unparsable _) eqn:E; [discriminate|].
  intros [= <- <-]. simpl. unfold selected_paths.
  rewrite <- (first_unparsable_none _ E). split.
  - intros path. apply keys_assign_all.
  - intros path H. now apply get_assign_all_absent.
Qed.

Lemma scan_adds_to_loaded_snapshot_witness :
  scan_package (sample_inspector stale_snapshot false, sample_world None sample_package)
  = (Ok tt, (sample_inspector
               [("/pkg/gone.py", [("bar", FuncSig "def bar()")]);
                ("/pkg/a.py", [("foo", FuncSig "def foo(a)")])] false,
             sample_world None sample_package))
  /\ get [("/pkg/gone.py", [("bar", FuncSig "def bar()")]);
          ("/pkg/a.py", [("foo", FuncSig "def foo(a)")])] "/pkg/gone.py"
     = get stale_snapshot "/pkg/gone.py".
Proof.
  assert (H : scan_package (sample_inspector stale_snapshot false,
                            sample_world None sample_package)
              = (Ok tt, (sample_inspector
                           [("/pkg/gone.py", [("bar", FuncSig "def bar()")]);
                            ("/pkg/a.py", [("foo", FuncSig "def foo(a)")])] false,
                         sample_world None sample_package)))
    by reflexivity.
  split; [exact H|].
  apply (proj2 (@scan_adds_to_loaded_snapshot _ _ _ _ H)).
  vm_compute. intros [[=]|[]].
Defined.

(** C2, as stated, fails: /pkg/gone.py was a key of the loaded snapshot and
    is no longer under /pkg; after the scan it is still a key, and the
    [update] command writes it back to pyproject.toml without reporting
    any removal. *)
Lemma stale_key_survives_scan :
  selected_paths "/pkg" sample_package = ["/pkg/a.py"]
  /\ keys (api_signatures
             (fst (snd (scan_package (sample_inspector stale_snapshot false,
                                      sample_world None sample_package)))))
     = ["/pkg/gone.py"; "/pkg/a.py"]
  /\ option_map stored_inspector_table
       (pyproject (snd (update "/pkg"
          (sample_world
             (Some (document_with_signatures (encode_signatures stale_snapshot)))
             sample_package))))
     = Some (Some {| api_signatures_entry :=
                       Some (encode_signatures
                               [("/pkg/gone.py", [("bar", FuncSig "def bar()")]);
                                ("/pkg/a.py", [("foo", FuncSig "def foo(a)")])]);
                     last_changes_entry := Some ["Added foo in /pkg/a.py"] |}).
Proof. repeat split. Qed.

(** ** The run *)

Lemma same_files_refl (w : World) : same_files w w.
Proof. repeat split. Qed.

Lemma same_files_print (line : string) (w w' : World) :
  same_files w w' -> same_files w (print line w').
Proof. intros (H1 & H2 & H3). repeat split; assumption. Qed.

Create HintDb frame.
#[local] Hint Resolve same_files_refl same_files_print : frame.

Section RunFacts.

Context {codec : Codec}.

Lemma print_changes_frame (changes : list string) :
  forall (self : ASTVersionInspector) (w0 w : World),
  same_files w0 w ->
  exists w', print_changes changes (self, w) = (Ok tt, (self, w')) /\ same_files w0 w'.
Proof.
  induction changes as [|c changes IH]; intros self w0 w Hw.
  - exists w. split; [reflexivity | assumption].
  - unfold print_changes. rewrite for_each_cons.
    unfold on_world at 1, modify. cbn [fst snd].
    apply IH. auto with frame.
Qed.

(** [run], one step after the other. *)
Lemma run_steps (self : ASTVersionInspector) (w : World) :
  run (self, w)
  = match scan_package (self, w) with
    | (Raise e, st) => (Raise e, st)
    | (Ok _, (self1, w1)) =>
        if negb (snapshot_eqb (api_signatures self) (api_signatures self1)) then
          match detect_changes (current_version self1)
                  (api_signatures self) (api_signatures self1) with
          | Raise e => (Raise e, (self1, w1))
          | Ok (new_version, changes) =>
              save_version new_version changes
                (self1, print ("Updating version: " ++ current_version self1
                               ++ " -> " ++ new_version) w1)
          end
        else (Ok tt, (self1, print "No changes detected in the public API." w1))
    end.
Proof.
  unfold run. rewrite bind_run. unfold read at 1. cbn [fst snd].
  rewrite bind_run. destruct (scan_package (self, w)) as [[[]|e] [self1 w1]];
    [|reflexivity].
  rewrite bind_run. unfold read at 1. cbn [fst snd].
  destruct (negb _); [|reflexivity].
  rewrite bind_run. unfold lift at 1.
  destruct (detect_changes _ _ _) as [[new_version changes]|e]; reflexivity.
Qed.

Lemma save_version_dry (new_version : string) (changes : list string)
  (self : ASTVersionInspector) (w0 w : World) :
  dry_run self = true -> same_files w0 w ->
  exists w', save_version new_version changes (self, w) = (Ok tt, (self, w'))
             /\ same_files w0 w'.
Proof.
  intros Hdry Hw. unfold save_version. rewrite bind_run. unfold read at 1.
  cbn [fst snd]. rewrite Hdry.
  rewrite bind_run. unfold on_world at 1, modify. cbn [fst snd].
  rewrite bind_run. unfold on_world at 1, modify. cbn [fst snd].
  apply print_changes_frame. auto with frame.
Qed.

(** A dry run leaves the files as they are, whatever its outcome. *)
Lemma run_dry (self : ASTVersionInspector) (w : World) :
  dry_run self = true -> same_files w (snd (snd (run (self, w)))).
Proof.
  intros Hdry. rewrite run_steps, scan_package_closed.
  destruct (first_unparsable _); [auto with frame|].
  destruct (negb _); [|cbn; auto with frame].
  destruct (detect_changes _ _ _) as [[new_version changes]|e]; [|auto with frame].
  edestruct save_version_dry as (w' & -> & Hw');
    [exact Hdry | | exact Hw']. auto with frame.
Qed.

End RunFacts.

Section RunClaims.

Context {codec : Codec}.

Lemma command_run (dry : bool) (path : string) (w : World) (self : ASTVersionInspector) :
  init path dry w = Ok self ->
  command dry path w = (fst (run (self, w)), snd (snd (run (self, w)))).
Proof.
  intros H. unfold command. rewrite H. now destruct (run (self, w)) as [r [s w']].
Qed.

Lemma init_dry_run (dry : bool) (path : string) (w : World) (self : ASTVersionInspector) :
  init path dry w = Ok self -> dry_run self = dry /\ package_path self = path.
Proof.
  unfold init. destruct (load_api_signatures w); [|discriminate].
  intros [= <-]. split; reflexivity.
Qed.

(** C6: a run in dry-run mode never writes the configuration store: the
    document in pyproject.toml (version, serialized snapshot and change
    list with it) is the same after the run as before, and nothing was
    handed to [toml.dump], whatever the scan detects and however the run
    ends; so it is for the [check] command. *)
Theorem dry_run_never_writes (self : ASTVersionInspector) (w : World) (path : string) :
  dry_run self = true ->
  (pyproject (snd (snd (run (self, w)))) = pyproject w
   /\ dumped (snd (snd (run (self, w)))) = dumped w)
  /\ (pyproject (snd (check path w)) = pyproject w
      /\ dumped (snd (check path w)) = dumped w).
Proof.
  intros Hdry. split.
  - destruct (run_dry self w Hdry) as (H1 & H2 & _). auto.
  - unfold check. destruct (init path true w) as [self0|e] eqn:E.
    + rewrite (command_run _ _ _ E). cbn [snd].
      destruct (init_dry_run _ _ _ E) as [Hd _].
      destruct (run_dry self0 w Hd) as (H1 & H2 & _). auto.
    + unfold command. rewrite E. auto.
Qed.

(** C8: when one of the selected source files is not valid Python, the run
    raises the [SyntaxError] of such a file to its caller and ends there:
    pyproject.toml is as before (version, snapshot and change list), and
    nothing was written or printed. *)
Theorem parse_error_aborts_run (self : ASTVersionInspector) (w : World) (path : string) :
  In (path, Unparsable) (selected_files (package_path self) (package w)) ->
  exists p self',
    In (p, Unparsable) (selected_files (package_path self) (package w))
    /\ run (self, w) = (Raise (SyntaxError p), (self', w))
    /\ (init (package_path self) (dry_run self) w = Ok self ->
        command (dry_run self) (package_path self) w = (Raise (SyntaxError p), w)).
Proof.
  intros Hin. destruct (first_unparsable_some _ _ Hin) as (p & Hp & Hpin).
  assert (Hrun : run (self, w)
                 = (Raise (SyntaxError p),
                    (with_api_signatures self
                       (assign_all (api_signatures self)
                          (parsed_prefix (selected_files (package_path self) (package w)))),
                     w))).
  { rewrite run_steps, scan_package_closed, Hp. reflexivity. }
  exists p. eexists. split; [exact Hpin|]. split; [exact Hrun|].
  intros Hinit. rewrite (command_run _ _ _ Hinit), Hrun. reflexivity.
Qed.

Lemma save_version_writes (new_version : string) (changes : list string)
  (self : ASTVersionInspector) (w : World) (data : toml) (table : project_table) :
  dry_run self = false -> pyproject w = Some data -> project data = Some table ->
  exists w',
    save_version new_version changes (self, w) = (Ok tt, (self, w'))
    /\ pyproject w'
       = Some (updated_document data table new_version (api_signatures self) changes)
    /\ dumped w'
       = updated_document data table new_version (api_signatures self) changes
         :: dumped w.
Proof.
  intros Hdry Hdata Htable. unfold save_version. rewrite bind_run.
  unfold read at 1. cbn [fst snd]. rewrite Hdry, Hdata, Htable.
  rewrite bind_run. unfold on_world at 1, modify. cbn [fst snd].
  rewrite bind_run. unfold on_world at 1, modify. cbn [fst snd].
  rewrite bind_run. unfold on_world at 1, modify. cbn [fst snd].
  match goal with
  | |- context [print_changes changes (self, ?w1)] =>
      destruct (print_changes_frame changes self (same_files_refl w1))
        as (w' & Hrun & Hp & Hd & _)
  end.
  exists w'. split; [exact Hrun|]. rewrite Hp, Hd. split; reflexivity.
Qed.

Lemma save_version_no_store (new_version : string) (changes : list string)
  (self : ASTVersionInspector) (w : World) :
  dry_run self = false -> stored_version_table_missing w ->
  save_version new_version changes (self, w) = (Ok tt, (self, w)).
Proof.
  intros Hdry Hmiss. unfold save_version. rewrite bind_run.
  unfold read at 1. cbn [fst snd]. rewrite Hdry.
  destruct Hmiss as [->|(data & -> & ->)]; reflexivity.
Qed.

(** C9 (amended): in a run that is not a dry run, whose scan and version
    bump raise no error and whose new snapshot differs from the old one,
    when pyproject.toml exists and holds a project table, the new version
    string, the serialized new snapshot and the list of change records are
    written to it together, in one write; when pyproject.toml is missing
    or holds no project table, nothing is written. *)
Theorem changes_persisted_together (self self1 : ASTVersionInspector) (w w1 : World)
  (new_version : string) (changes : list string) :
  dry_run self = false ->
  scan_package (self, w) = (Ok tt, (self1, w1)) ->
  snapshot_eqb (api_signatures self) (api_signatures self1) = false ->
  detect_changes (current_version self) (api_signatures self) (api_signatures self1)
  = Ok (new_version, changes) ->
  (forall data table,
      pyproject w = Some data -> project data = Some table ->
      exists w' doc,
        run (self, w) = (Ok tt, (self1, w'))
        /\ pyproject w' = Some doc
        /\ dumped w' = doc :: dumped w
        /\ stored_version doc = Some new_version
        /\ stored_inspector_table doc
           = Some {| api_signatures_entry :=
                       Some (encode_signatures (api_signatures self1));
                     last_changes_entry := Some changes |})
  /\ (stored_version_table_missing w ->
      exists w', run (self, w) = (Ok tt, (self1, w'))
                 /\ pyproject w' = pyproject w /\ dumped w' = dumped w).
Proof.
  intros Hdry Hscan Hdiff Hdetect.
  assert (Hsame : current_version self1 = current_version self
                  /\ dry_run self1 = dry_run self /\ w1 = w).
  { rewrite scan_package_closed in Hscan.
    destruct (first_unparsable _); [discriminate|].
    injection Hscan as <- <-. repeat split. }
  destruct Hsame as (Hcv & Hd1 & ->). rewrite <- Hd1 in Hdry.
  assert (Hrun : run (self, w)
                 = save_version new_version changes
                     (self1, print ("Updating version: " ++ current_version self1
                                    ++ " -> " ++ new_version) w)).
  { rewrite run_steps, Hscan, Hdiff, Hcv, Hdetect. reflexivity. }
  split.
  - intros data table Hdata Htable.
    destruct (@save_version_writes new_version changes self1
                (print ("Updating version: " ++ current_version self1
                        ++ " -> " ++ new_version) w) data table Hdry Hdata Htable)
      as (w' & Hsave & Hp & Hdump).
    exists w'. eexists. rewrite Hrun.
    split; [exact Hsave|]. split; [exact Hp|]. split; [exact Hdump|].
    split; reflexivity.
  - intros Hmiss. eexists. rewrite Hrun.
    split; [apply save_version_no_store; [exact Hdry|]|split; reflexivity].
    destruct Hmiss as [H|(data & H1 & H2)]; [left | right; exists data]; auto.
Qed.


End RunClaims.

(** ** The properties on the sample packages *)

Lemma dry_run_never_writes_witness :
  (pyproject (snd (snd (run (sample_inspector [] true,
                             sample_world (Some sample_document) sample_package))))
   = Some sample_document
   /\ dumped (snd (snd (run (sample_inspector [] true,
                             sample_world (Some sample_document) sample_package))))
      = [])
  /\ (pyproject (snd (check "/pkg" (sample_world (Some sample_document) sample_package)))
      = Some sample_document
      /\ dumped (snd (check "/pkg" (sample_world (Some sample_document) sample_package)))
         = []).
Proof.
  apply (@dry_run_never_writes plain_codec (sample_inspector [] true)
           (sample_world (Some sample_document) sample_package) "/pkg").
  reflexivity.
Defined.

Lemma parse_error_aborts_run_witness :
  exists p self',
    In (p, Unparsable) (selected_files "/pkg" broken_package)
    /\ run (sample_inspector [] false, sample_world (Some sample_document) broken_package)
       = (Raise (SyntaxError p), (self', sample_world (Some sample_document) broken_package))
    /\ (init "/pkg" false (sample_world (Some sample_document) broken_package)
        = Ok (sample_inspector [] false) ->
        command false "/pkg" (sample_world (Some sample_document) broken_package)
        = (Raise (SyntaxError p), sample_world (Some sample_document) broken_package)).
Proof.
  apply (@parse_error_aborts_run plain_codec (sample_inspector [] false)
           (sample_world (Some sample_document) broken_package) "/pkg/b.py").
  vm_compute. right. now left.
Defined.

Lemma changes_persisted_together_witness :
  exists w' doc,
    run (sample_inspector [] false, sample_world (Some sample_document) sample_package)
    = (Ok tt, (sample_inspector [("/pkg/a.py", [("foo", FuncSig "def foo(a)")])] false, w'))
    /\ pyproject w' = Some doc
    /\ dumped w' = [doc]
    /\ stored_version doc = Some "1.1.0"
    /\ stored_inspector_table doc
       = Some {| api_signatures_entry :=
                   Some "eyIvcGtnL2EucHkiOiB7ImZvbyI6ICJkZWYgZm9vKGEpIn19";
                 last_changes_entry := Some ["Added foo in /pkg/a.py"] |}.
Proof.
  apply (proj1 (@changes_persisted_together plain_codec
                  (sample_inspector [] false)
                  (sample_inspector [("/pkg/a.py", [("foo", FuncSig "def foo(a)")])] false)
                  (sample_world (Some sample_document) sample_package)
                  (sample_world (Some sample_document) sample_package)
                  "1.1.0" ["Added foo in /pkg/a.py"]
                  eq_refl eq_refl eq_refl eq_refl)
           sample_document {| version := Some "1.0.0"; project_rest := [] |}
           eq_refl eq_refl).
Defined.

(** C9, as stated, fails: /pkg has no pyproject.toml; the run is not a dry
    run and finds a new function, reports the bump, and writes nothing. *)
Lemma nothing_persisted_without_store :
  update "/pkg" (sample_world None sample_package)
  = (Ok tt, {| pyproject := None; package := sample_package;
               stdout := ["Updating version: 0.1.0 -> 0.2.0"];
               dumped := [] |}).
Proof. reflexivity. Qed.



(** * Further properties *)

(** ** Dictionaries: keys held once, last assignment kept *)
Section DictForm.

Context {V : Type}.
Implicit Types (d : dict V) (k : string) (v : V).

Lemma keys_set_eq d k v :
  keys (set d k v) = if mem d k then keys d else (keys d ++ [k])%list.
Proof.
  unfold mem, keys. induction d as [|[k0 v0] d IH]; simpl.
  - reflexivity.
  - destruct (String.eqb_spec k k0) as [->|Hk]; simpl.
    + reflexivity.
    + rewrite IH. now destruct (get d k).
Qed.

Lemma nodup_keys_set d k v : NoDup (keys d) -> NoDup (keys (set d k v)).
Proof.
  intros H. rewrite keys_set_eq. destruct (mem d k) eqn:E; [assumption|].
  apply mem_false_iff in E. apply NoDup_app; [assumption | repeat constructor; intros [] | ].
  intros x Hx [<-|[]]. contradiction.
Qed.

Lemma nodup_keys_assign_all l : forall d,
  NoDup (keys d) -> NoDup (keys (assign_all d l)).
Proof.
  unfold assign_all. induction l as [|[k v] l IH]; intros d H; simpl.
  - assumption.
  - apply IH. now apply nodup_keys_set.
Qed.

Lemma assign_all_app (l1 l2 : list (string * V)) d :
  assign_all d (l1 ++ l2) = assign_all (assign_all d l1) l2.
Proof. unfold assign_all. apply fold_left_app. Qed.

(** The value of a key after a run of assignments: the last one the run
    gave it, or the one it had. *)
Lemma get_assign_all l : forall d k,
  get (assign_all d l) k
  = match get (rev l) k with Some v => Some v | None => get d k end.
Proof.
  induction l as [|[k0 v0] l IH] using rev_ind; intros d k.
  - reflexivity.
  - rewrite assign_all_app, rev_app_distr. simpl.
    destruct (String.eqb_spec k k0) as [->|Hk].
    + apply get_set_same.
    + rewrite get_set_other by congruence. apply IH.
Qed.

Lemma get_assign_all_last (l1 l2 : list (string * V)) d k v :
  ~ In k (map fst l2) ->
  get (assign_all d (l1 ++ (k, v) :: l2)) k = Some v.
Proof.
  intros H. rewrite assign_all_app. change ((k, v) :: l2) with ([(k, v)] ++ l2)%list.
  rewrite assign_all_app, get_assign_all_absent by assumption.
  apply get_set_same.
Qed.

Lemma in_get d k v : NoDup (keys d) -> In (k, v) d -> get d k = Some v.
Proof.
  unfold keys. induction d as [|[k0 v0] d IH]; simpl; intros Hnd Hin.
  - contradiction.
  - inversion Hnd as [|? ? Hout Hnd']; subst.
    destruct Hin as [[= -> ->]|Hin].
    + now rewrite String.eqb_refl.
    + destruct (String.eqb_spec k k0) as [->|Hk].
      * exfalso. apply Hout. apply (in_map fst) in Hin. exact Hin.
      * auto.
Qed.

(** Two dictionaries with the same keys in the same order and the same
    value at each key are the same. *)
Lemma dict_ext (a : dict V) : forall b : dict V,
  NoDup (keys a) -> keys a = keys b -> (forall k, get a k = get b k) -> a = b.
Proof.
  unfold keys. induction a as [|[k v] a IH]; intros [|[k' v'] b] Hnd Hk Hg;
    simpl in *; try discriminate; [reflexivity|].
  injection Hk as <- Hk. inversion Hnd as [|? ? Hout Hnd']; subst.
  pose proof (Hg k) as Hv. rewrite String.eqb_refl in Hv. injection Hv as <-.
  f_equal. apply IH; [assumption | assumption |].
  intros k0. destruct (String.eqb_spec k0 k) as [E|Hne].
  - subst k0.
    assert (H1 : get a k = None) by now apply get_none_iff.
    assert (H2 : get b k = None) by (apply get_none_iff; unfold keys; now rewrite <- Hk).
    congruence.
  - specialize (Hg k0). apply String.eqb_neq in Hne. now rewrite Hne in Hg.
Qed.

Lemma keys_assign_all_present l : forall d,
  (forall k, In k (map fst l) -> In k (keys d)) ->
  keys (assign_all d l) = keys d.
Proof.
  unfold assign_all. induction l as [|[k v] l IH]; intros d H; simpl in *.
  - reflexivity.
  - assert (Hk : keys (set d k v) = keys d).
    { rewrite keys_set_eq. assert (Hm : mem d k = true) by (apply mem_true_iff; auto).
      now rewrite Hm. }
    rewrite IH; [exact Hk|]. intros k0 Hk0. rewrite Hk. auto.
Qed.

(** Assigning the same run a second time changes nothing. *)
Lemma assign_all_twice l d :
  NoDup (keys d) -> assign_all (assign_all d l) l = assign_all d l.
Proof.
  intros Hnd. apply dict_ext.
  - now apply nodup_keys_assign_all, nodup_keys_assign_all.
  - apply keys_assign_all_present. intros k Hk. apply keys_assign_all. now right.
  - intros k. rewrite (get_assign_all l (assign_all d l)).
    destruct (get (rev l) k) as [v|] eqn:E; [|reflexivity].
    rewrite get_assign_all, E. reflexivity.
Qed.

Lemma forall_set (P : string * V -> Prop) d k v :
  (forall k', P (k', v)) -> Forall P d -> Forall P (set d k v).
Proof.
  intros Hv. induction 1 as [|[k0 v0] d Hx Hd IH]; simpl.
  - constructor; [apply Hv | constructor].
  - destruct (String.eqb k k0); constructor; auto.
Qed.

End DictForm.

(** ** The extractor: one entry per name, the last declaration kept *)

Lemma nodup_keys_class_signature (body : list node) :
  NoDup (keys (get_class_signature body)).
Proof.
  rewrite get_class_signature_methods. apply nodup_keys_assign_all. constructor.
Qed.

Lemma declaration_well_formed (n : node) (name : string) (s : Signature) :
  declaration n = Some (name, s) -> well_formed_signature s.
Proof.
  destruct n; simpl; intros [= <- <-]; simpl; [exact I|].
  apply nodup_keys_class_signature.
Qed.

Lemma well_formed_api_of_tree (tree : node) : well_formed_api (api_of_tree tree).
Proof.
  split.
  - rewrite api_of_tree_declarations. apply nodup_keys_assign_all. constructor.
  - unfold api_of_tree. apply fold_left_invariant; [|constructor].
    intros api n Hapi. destruct n; simpl; [| |assumption].
    + apply forall_set; [intros; exact I | assumption].
    + apply forall_set; [intros; apply nodup_keys_class_signature | assumption].
Qed.

(** X1: in the set [extract_api] returns, a name declared several times in
    the file is a key once, bound to the signature of its last declaration
    in the order of [ast.walk]. *)
Theorem last_declaration_recorded (file_path : string) (tree : node)
  (before after : list (string * Signature)) (name : string) (s : Signature) :
  declarations tree = (before ++ (name, s) :: after)%list ->
  ~ In name (map fst after) ->
  exists api, extract_api file_path (Parsed tree) = Ok api
              /\ get api name = Some s
              /\ NoDup (keys api).
Proof.
  intros Hd Hlast. eexists. split; [reflexivity|]. split.
  - rewrite api_of_tree_declarations, Hd. now apply get_assign_all_last.
  - apply well_formed_api_of_tree.
Qed.

Lemma last_declaration_recorded_witness :
  exists api, extract_api "pkg/a.py" (Parsed two_classes_file) = Ok api
              /\ get api "run" = Some (FuncSig "def run(self, x)")
              /\ NoDup (keys api).
Proof.
  apply (@last_declaration_recorded "pkg/a.py" two_classes_file
           [("A", ClassSig [("run", "def run(self)")]);
            ("B", ClassSig [("run", "def run(self, x)")]);
            ("run", FuncSig "def run(self)")]
           [] "run" (FuncSig "def run(self, x)")).
  - reflexivity.
  - intros [].
Defined.

Lemma walk_module (body : list node) :
  walk (Module body)
  = (Module body :: body ++ walk_queue (flat_map iter_child_nodes body))%list.
Proof.
  unfold walk, Module. simp walk_queue. simpl. now rewrite walk_queue_levels.
Qed.

Lemma nested_in_walk (body : list node) (n : node) :
  nested_in body n -> In n (walk_queue (flat_map iter_child_nodes body)).
Proof.
  intros (top & child & Htop & Hchild & Hin).
  assert (Hc : In child (walk_queue (flat_map iter_child_nodes body))).
  { apply walk_queue_incl, in_flat_map. eauto. }
  induction Hin as [|x c _ IH Hx]; [assumption|].
  eapply walk_queue_children; eassumption.
Qed.

Lemma walk_nested_in (body : list node) (n : node) :
  In n (walk_queue (flat_map iter_child_nodes body)) -> nested_in body n.
Proof.
  intros H. apply walk_queue_inside in H. destruct H as (child & Hc & Hin).
  apply in_flat_map in Hc. destruct Hc as (top & Htop & Hchild).
  exists top, child. auto.
Qed.

(** X2: a declaration below the top level of a file takes the key from a
    top-level declaration of the same name: when some nested function or
    class is named [name], the key [name] of the extracted set is bound to
    the signature of a nested declaration, whatever is declared under that
    name at top level. *)
Theorem nested_declaration_shadows_top_level (file_path : string)
  (body : list node) (n : node) (name : string) :
  nested_in body n -> declared_name n = Some name ->
  exists api m s,
    extract_api file_path (Parsed (Module body)) = Ok api
    /\ nested_in body m
    /\ declaration m = Some (name, s)
    /\ get api name = Some s.
Proof.
  intros Hn Hname. apply nested_in_walk in Hn.
  set (decl := fun x : node => match declaration x with Some d => [d] | None => [] end).
  assert (Hd : declarations (Module body)
               = (flat_map decl body
                  ++ flat_map decl (walk_queue (flat_map iter_child_nodes body)))%list).
  { unfold declarations. rewrite walk_module. simpl. now rewrite flat_map_app. }
  destruct (get_assign_all_present
              (flat_map decl (walk_queue (flat_map iter_child_nodes body)))
              (assign_all empty (flat_map decl body)) name) as (s & Hin & Hget).
  - unfold declared_name in Hname.
    destruct (declaration n) as [[k s]|] eqn:E; [|discriminate].
    simpl in Hname. injection Hname as ->.
    apply in_map_iff. exists (name, s). split; [reflexivity|].
    apply in_flat_map. exists n. split; [assumption|]. unfold decl. rewrite E. now left.
  - apply in_flat_map in Hin. destruct Hin as (m & Hm & Hdm).
    unfold decl in Hdm. destruct (declaration m) as [d|] eqn:E; [|contradiction].
    destruct Hdm as [->|[]].
    exists (api_of_tree (Module body)), m, s.
    split; [reflexivity|]. split; [now apply walk_nested_in|]. split; [exact E|].
    rewrite api_of_tree_declarations, Hd, assign_all_app. exact Hget.
Qed.

Lemma nested_declaration_shadows_top_level_witness :
  exists api m s,
    extract_api "pkg/a.py" (Parsed (Module shadowed_function_file)) = Ok api
    /\ nested_in shadowed_function_file m
    /\ declaration m = Some ("run", s)
    /\ get api "run" = Some s.
Proof.
  apply (@nested_declaration_shadows_top_level "pkg/a.py" shadowed_function_file
           (FunctionDef "run" ["self"] []) "run").
  - exists (ClassDef "C" [FunctionDef "run" ["self"] []]), (FunctionDef "run" ["self"] []).
    split; [right; now left|]. split; [now left | constructor].
  - reflexivity.
Defined.

(** ** The diff classifier: records, counters and the bump *)

(** X3: an Added record is emitted exactly for a declaration of a file of
    new that old does not hold under that file, be it that old lacks the
    name or the whole file. *)
Theorem added_exactly_for_new_names (old new : Snapshot) (key file : string) :
  In (Added key file) (changes (classify old new))
  <-> exists new_api, In (file, new_api) new
                      /\ In key (keys new_api)
                      /\ mem (get_default old file empty) key = false.
Proof.
  rewrite changes_classify. split.
  - intros ([f new_api] & Hin & [(e & He & [[Hg [= -> ->]]|(o & _ & _ & [=])])
                                |(e & _ & _ & [=])]).
    exists new_api. simpl in *. split; [assumption|]. split.
    + apply (in_map fst) in He. exact He.
    + unfold mem. now rewrite Hg.
  - intros (new_api & Hin & Hk & Hm).
    apply in_map_iff in Hk. destruct Hk as ([k s] & <- & Hk).
    exists (file, new_api). split; [assumption|]. left.
    exists (k, s). split; [assumption|]. left. split; [|reflexivity].
    simpl in *. unfold mem in Hm. now destruct (get _ k).
Qed.

(** X4: a Changed record is emitted exactly for a declaration that a file
    of new and the same file of old both hold, with signatures that [!=]
    tells apart. *)
Theorem changed_exactly_for_unequal_signatures (old new : Snapshot) (key file : string) :
  In (Changed key file) (changes (classify old new))
  <-> exists new_api new_sig old_sig,
        In (file, new_api) new
        /\ In (key, new_sig) new_api
        /\ get (get_default old file empty) key = Some old_sig
        /\ signature_eqb new_sig old_sig = false.
Proof.
  split.
  - intros H. apply changes_classify in H.
    destruct H as ([f new_api] & Hin & [(e & He & [[_ [=]]|(o & Hg & Hne & [= -> ->])])
                                       |(e & _ & _ & [=])]).
    destruct e as [k s]. simpl in *. exists new_api, s, o. auto.
  - intros (new_api & new_sig & old_sig & Hin & Hk & Hg & Hne).
    eapply changed_classify; eassumption.
Qed.

Lemma filter_partition_length (l : list ChangeRecord) :
  length (filter is_breaking l) + length (filter is_addition l) = length l.
Proof.
  induction l as [|c l IH]; simpl; [reflexivity|].
  destruct c; simpl; lia.
Qed.

(** X5: every record of a diff is counted once: Added records in the minor
    counter, Changed and Removed records in the major counter, so that
    the two counters add up to the number of records; the patch counter
    stays at zero. *)
Theorem every_record_counted_once (old new : Snapshot) :
  minor (classify old new) = length (filter is_addition (changes (classify old new)))
  /\ major (classify old new) + minor (classify old new)
     = length (changes (classify old new))
  /\ patch (classify old new) = 0.
Proof.
  destruct (counted_classify old new) as (Ha & Hb & Hc).
  split; [exact Hb|]. split; [|exact Hc].
  rewrite Ha, Hb. apply filter_partition_length.
Qed.

Lemma filter_length_existsb {A : Type} (f : A -> bool) (l : list A) :
  negb (Nat.eqb (length (filter f l)) 0) = existsb f l.
Proof.
  induction l as [|x l IH]; simpl; [reflexivity|].
  destruct (f x); simpl; [reflexivity | exact IH].
Qed.

Lemma detect_changes_by_records (current_version : string) (v : Semver.Version)
  (old new : Snapshot) :
  Semver.parse current_version = Some v ->
  detect_changes current_version old new
  = Ok (Semver.to_string (bump_for (changes (classify old new)) v),
        map describe (changes (classify old new))).
Proof.
  intros Hv. unfold detect_changes, increment_version, bump_for. rewrite Hv.
  destruct (counted_classify old new) as (Ha & Hb & Hc).
  rewrite Ha, Hb, Hc, !filter_length_existsb. reflexivity.
Qed.

(** X6: the bump [detect_changes] returns is read off its records: a major
    bump when some record is Changed or Removed, otherwise a minor bump
    when some record is Added, otherwise the current version itself; it
    never bumps the patch component. *)
Theorem bump_follows_records (current_version : string) (v : Semver.Version)
  (old new : Snapshot) :
  Semver.parse current_version = Some v ->
  exists new_version,
    detect_changes current_version old new
    = Ok (new_version, map describe (changes (classify old new)))
    /\ (existsb is_breaking (changes (classify old new)) = true ->
        new_version = Semver.to_string (Semver.bump_major v))
    /\ (existsb is_breaking (changes (classify old new)) = false ->
        existsb is_addition (changes (classify old new)) = true ->
        new_version = Semver.to_string (Semver.bump_minor v))
    /\ (changes (classify old new) = [] -> new_version = current_version).
Proof.
  intros Hv. eexists. split; [apply detect_changes_by_records; exact Hv|].
  unfold bump_for. split; [|split].
  - now intros ->.
  - now intros -> ->.
  - intros ->. simpl. now apply to_string_parse.
Qed.

Lemma bump_follows_records_witness :
  exists new_version,
    detect_changes "1.4.9" snapshot_with_foo snapshot_without_foo
    = Ok (new_version,
          map describe (changes (classify snapshot_with_foo snapshot_without_foo)))
    /\ (existsb is_breaking (changes (classify snapshot_with_foo snapshot_without_foo))
        = true ->
        new_version = "2.0.0")
    /\ (existsb is_breaking (changes (classify snapshot_with_foo snapshot_without_foo))
        = false ->
        existsb is_addition (changes (classify snapshot_with_foo snapshot_without_foo))
        = true ->
        new_version = "1.5.0")
    /\ (changes (classify snapshot_with_foo snapshot_without_foo) = [] ->
        new_version = "1.4.9").
Proof.
  apply (@bump_follows_records "1.4.9"
           {| Semver.major := 1; Semver.minor := 4; Semver.patch := 9 |}
           snapshot_with_foo snapshot_without_foo).
  reflexivity.
Defined.

(** X7: a rename is not recognised: when a file of new lacks a name that
    old holds for it and holds a name that old lacks, the diff reports one
    Removed and one Added record for the two names, and the bump is
    major. *)
Theorem rename_is_removal_and_addition (current_version : string)
  (v : Semver.Version) (old new : Snapshot) (file old_name new_name : string)
  (new_api : FileSignatureSet) :
  Semver.parse current_version = Some v ->
  In (file, new_api) new ->
  In old_name (keys (get_default old file empty)) ->
  mem new_api old_name = false ->
  In new_name (keys new_api) ->
  mem (get_default old file empty) new_name = false ->
  In (Removed old_name file) (changes (classify old new))
  /\ In (Added new_name file) (changes (classify old new))
  /\ detect_changes current_version old new
     = Ok (Semver.to_string (Semver.bump_major v),
           map describe (changes (classify old new))).
Proof.
  intros Hv Hfile Hold Hgone Hnew Hfresh.
  assert (Hrem : In (Removed old_name file) (changes (classify old new))).
  { apply removed_classify. eauto. }
  split; [exact Hrem|]. split.
  - apply changes_classify. exists (file, new_api). split; [assumption|]. left.
    apply in_map_iff in Hnew. destruct Hnew as ([k s] & <- & Hk).
    exists (k, s). split; [assumption|]. left. split; [|reflexivity].
    simpl in *. unfold mem in Hfresh. now destruct (get _ k).
  - rewrite (@detect_changes_by_records current_version v old new Hv). unfold bump_for.
    assert (E : existsb is_breaking (changes (classify old new)) = true).
    { apply existsb_exists. exists (Removed old_name file). auto. }
    now rewrite E.
Qed.

Lemma rename_is_removal_and_addition_witness :
  In (Removed "foo" "pkg/f.py")
     (changes (classify snapshot_with_foo [("pkg/f.py", [("bar", FuncSig "def bar(a)")])]))
  /\ In (Added "bar" "pkg/f.py")
        (changes (classify snapshot_with_foo
                           [("pkg/f.py", [("bar", FuncSig "def bar(a)")])]))
  /\ detect_changes "1.4.9" snapshot_with_foo
       [("pkg/f.py", [("bar", FuncSig "def bar(a)")])]
     = Ok ("2.0.0",
           map describe
             (changes (classify snapshot_with_foo
                                [("pkg/f.py", [("bar", FuncSig "def bar(a)")])]))).
Proof.
  apply (@rename_is_removal_and_addition "1.4.9"
           {| Semver.major := 1; Semver.minor := 4; Semver.patch := 9 |}
           snapshot_with_foo [("pkg/f.py", [("bar", FuncSig "def bar(a)")])]
           "pkg/f.py" "foo" "bar" [("bar", FuncSig "def bar(a)")]).
  - reflexivity.
  - now left.
  - simpl. now left.
  - reflexivity.
  - simpl. now left.
  - reflexivity.
Defined.

(** ** Equal snapshots, and the diff file by file *)

Lemma dict_eqb_forward {V : Type} (veqb : V -> V -> bool) (a b : dict V) :
  Dict.eqb veqb a b = true ->
  length a = length b
  /\ forall k v, In (k, v) a -> exists v', get b k = Some v' /\ veqb v v' = true.
Proof.
  unfold Dict.eqb. intros H. apply andb_prop in H. destruct H as [Hl Hf].
  split; [now apply Nat.eqb_eq|].
  intros k v Hin. rewrite forallb_forall in Hf. specialize (Hf _ Hin). simpl in Hf.
  destruct (get b k) as [v'|]; [eauto | discriminate].
Qed.

(** With keys held once, equality of dictionaries can be read from the
    second one as well. *)
Lemma dict_eqb_backward {V : Type} (veqb : V -> V -> bool) (a b : dict V) :
  NoDup (keys a) -> NoDup (keys b) -> Dict.eqb veqb a b = true ->
  forall k vb, In (k, vb) b ->
               exists va, In (k, va) a /\ get a k = Some va /\ veqb va vb = true.
Proof.
  intros Ha Hb H k vb Hin. destruct (@dict_eqb_forward _ veqb a b H) as [Hl Hf].
  assert (Hincl : incl (keys a) (keys b)).
  { intros x Hx. apply in_map_iff in Hx. destruct Hx as ([k0 v0] & <- & Hx).
    destruct (Hf _ _ Hx) as (v' & Hg & _). apply get_some_in in Hg.
    apply (in_map fst) in Hg. exact Hg. }
  assert (Hback : incl (keys b) (keys a)).
  { apply NoDup_length_incl; [assumption | | assumption].
    unfold keys. rewrite !length_map. lia. }
  assert (Hk : In k (keys a)) by (apply Hback; apply (in_map fst) in Hin; exact Hin).
  apply in_map_iff in Hk. destruct Hk as ([k0 va] & Hk0 & Hk). simpl in Hk0. subst k0.
  destruct (Hf _ _ Hk) as (v' & Hg & He).
  rewrite (@in_get _ b k vb Hb Hin) in Hg. injection Hg as <-.
  exists va. split; [assumption|]. split; [now apply in_get | assumption].
Qed.

Lemma signature_eqb_sym (a b : Signature) :
  well_formed_signature a -> well_formed_signature b ->
  signature_eqb a b = true -> signature_eqb b a = true.
Proof.
  destruct a as [x|x], b as [y|y]; simpl; try discriminate.
  - intros _ _ H. now rewrite String.eqb_sym.
  - intros Hx Hy H. destruct (@dict_eqb_forward _ String.eqb x y H) as [Hl _].
    unfold Dict.eqb. apply andb_true_intro. split; [apply Nat.eqb_eq; lia|].
    apply forallb_forall. intros [k vy] Hin. simpl.
    destruct (@dict_eqb_backward _ String.eqb x y Hx Hy H k vy Hin) as (vx & _ & Hg & He).
    rewrite Hg. now rewrite String.eqb_sym.
Qed.

Lemma fold_left_fixed {A X : Type} (f : A -> X -> A) (l : list X) (a : A) :
  (forall x, In x l -> f a x = a) -> fold_left f l a = a.
Proof.
  induction l as [|x l IH]; simpl; intros H; [reflexivity|].
  rewrite (H x) by now left. apply IH. intros y Hy. apply H. now right.
Qed.

Lemma forall_in {A : Type} (P : A -> Prop) (l : list A) (x : A) :
  Forall P l -> In x l -> P x.
Proof. intros H. rewrite Forall_forall in H. apply H. Qed.

(** X8: the test [old_api != self.api_signatures] of [run] and the
    classifier agree on equal snapshots: when the two snapshots are equal
    as dictionaries, the diff has no record and all counters are zero. *)
Theorem equal_snapshots_have_no_changes (old new : Snapshot) :
  well_formed_snapshot old -> well_formed_snapshot new ->
  snapshot_eqb old new = true ->
  classify old new = no_changes.
Proof.
  intros [Hold Hold'] [Hnew Hnew'] Heq. unfold classify.
  apply fold_left_fixed. intros [file new_api] Hin.
  destruct (@dict_eqb_backward _ file_api_eqb old new Hold Hnew Heq file new_api Hin)
    as (old_api & Hino & Hget & He).
  unfold visit_file, get_default. rewrite Hget.
  destruct (@forall_in _ _ old (file, old_api) Hold' Hino) as [Hoa Hoa'].
  destruct (@forall_in _ _ new (file, new_api) Hnew' Hin) as [Hna Hna']. simpl in *.
  rewrite (fold_left_fixed (visit_new_key file old_api)).
  - apply fold_left_fixed. intros [k s] Hk. unfold visit_old_key.
    destruct (@dict_eqb_forward _ signature_eqb old_api new_api He) as [_ Hf].
    destruct (Hf _ _ Hk) as (s' & Hg & _). unfold mem. now rewrite Hg.
  - intros [k s] Hk. unfold visit_new_key.
    destruct (@dict_eqb_backward _ signature_eqb old_api new_api Hoa Hna He k s Hk)
      as (s' & Hs' & Hg & Hss).
    rewrite Hg.
    rewrite (signature_eqb_sym s' s); [reflexivity | | | assumption].
    + apply (@forall_in _ _ old_api (k, s') Hoa' Hs').
    + apply (@forall_in _ _ new_api (k, s) Hna' Hk).
Qed.

Lemma equal_snapshots_have_no_changes_witness :
  classify [("pkg/f.py", [("foo", FuncSig "def foo(a)"); ("C", ClassSig [])]);
            ("pkg/g.py", [])]
           [("pkg/g.py", []);
            ("pkg/f.py", [("C", ClassSig []); ("foo", FuncSig "def foo(a)")])]
  = no_changes.
Proof.
  apply equal_snapshots_have_no_changes.
  - split.
    + repeat constructor; simpl; intuition discriminate.
    + repeat constructor; simpl; intuition discriminate.
  - split.
    + repeat constructor; simpl; intuition discriminate.
    + repeat constructor; simpl; intuition discriminate.
  - reflexivity.
Defined.

Lemma combine_no_changes (t : Tally) : combine t no_changes = t.
Proof.
  destruct t as [a b c l]. unfold combine. simpl.
  now rewrite !Nat.add_0_r, app_nil_r.
Qed.

Lemma combine_added k f t u : count_added k f (combine t u) = combine t (count_added k f u).
Proof.
  unfold combine, count_added. simpl. f_equal; [lia | now rewrite app_assoc].
Qed.

Lemma combine_changed k f t u :
  count_changed k f (combine t u) = combine t (count_changed k f u).
Proof.
  unfold combine, count_changed. simpl. f_equal; [lia | now rewrite app_assoc].
Qed.

Lemma combine_removed k f t u :
  count_removed k f (combine t u) = combine t (count_removed k f u).
Proof.
  unfold combine, count_removed. simpl. f_equal; [lia | now rewrite app_assoc].
Qed.

(** A loop whose turns only add to the tally adds the same whatever the
    tally it starts from. *)
Lemma fold_left_combine {X : Type} (f : Tally -> X -> Tally) :
  (forall t u x, f (combine t u) x = combine t (f u x)) ->
  forall l t u, fold_left f l (combine t u) = combine t (fold_left f l u).
Proof.
  intros Hf l. induction l as [|x l IH]; intros t u; simpl; [reflexivity|].
  now rewrite Hf, IH.
Qed.

Lemma combine_visit_new_key file old_api t u e :
  visit_new_key file old_api (combine t u) e = combine t (visit_new_key file old_api u e).
Proof.
  destruct e as [k s]. unfold visit_new_key.
  destruct (get old_api k); [destruct (negb _)|];
    auto using combine_added, combine_changed.
Qed.

Lemma combine_visit_old_key file new_api t u e :
  visit_old_key file new_api (combine t u) e = combine t (visit_old_key file new_api u e).
Proof.
  destruct e as [k s]. unfold visit_old_key.
  destruct (negb _); auto using combine_removed.
Qed.

Lemma combine_visit_file old t u e :
  visit_file old (combine t u) e = combine t (visit_file old u e).
Proof.
  destruct e as [file new_api]. unfold visit_file.
  rewrite (fold_left_combine _ (combine_visit_new_key file _)).
  apply fold_left_combine. intros. apply combine_visit_old_key.
Qed.

(** X9: the files of new are classified one by one, in the order of the
    dictionary: the diff against a snapshot whose files are those of
    [new1] followed by those of [new2] is the diff against [new1] followed
    by the diff against [new2], records end to end and counters added. *)
Theorem diff_is_file_by_file (old new1 new2 : Snapshot) :
  classify old (new1 ++ new2)%list = combine (classify old new1) (classify old new2).
Proof.
  unfold classify. rewrite fold_left_app.
  rewrite <- (combine_no_changes (fold_left (visit_file old) new1 no_changes)) at 1.
  apply fold_left_combine. intros. apply combine_visit_file.
Qed.

(** ** The scan: what it stores, and when it stops *)

Lemma first_unparsable_app (before l : list (string * source)) :
  first_unparsable before = None ->
  first_unparsable (before ++ l) = first_unparsable l
  /\ parsed_prefix (before ++ l) = (parsed_prefix before ++ parsed_prefix l)%list.
Proof.
  induction before as [|[p [tree|]] before IH]; simpl; intros H.
  - auto.
  - destruct (IH H) as [H1 H2]. now rewrite H1, H2.
  - discriminate.
Qed.

(** X10: a scan that meets a file that does not parse stops there with the
    [SyntaxError] of that file: the files selected before it are already
    stored in [self.api_signatures], the files after it are not looked at,
    and nothing else of the object or of the world has changed. *)
Theorem failing_scan_is_partial (self : ASTVersionInspector) (w : World)
  (before after : list (string * source)) (path : string) :
  selected_files (package_path self) (package w)
  = (before ++ (path, Unparsable) :: after)%list ->
  first_unparsable before = None ->
  scan_package (self, w)
  = (Raise (SyntaxError path),
     (with_api_signatures self
        (assign_all (api_signatures self) (parsed_prefix before)), w))
  /\ map fst (parsed_prefix before) = map fst before.
Proof.
  intros Hfiles Hbefore. rewrite scan_package_closed, Hfiles.
  destruct (first_unparsable_app before ((path, Unparsable) :: after) Hbefore)
    as [H1 H2].
  rewrite H1, H2. simpl. rewrite app_nil_r.
  split; [reflexivity | now apply first_unparsable_none].
Qed.

Lemma failing_scan_is_partial_witness :
  scan_package (sample_inspector [] false, sample_world None broken_package)
  = (Raise (SyntaxError "/pkg/b.py"),
     (sample_inspector [("/pkg/a.py", [("foo", FuncSig "def foo(a)")])] false,
      sample_world None broken_package))
  /\ map fst (parsed_prefix [("/pkg/a.py", Parsed (Module [FunctionDef "foo" ["a"] []]))])
     = ["/pkg/a.py"].
Proof.
  apply (@failing_scan_is_partial (sample_inspector [] false)
           (sample_world None broken_package)
           [("/pkg/a.py", Parsed (Module [FunctionDef "foo" ["a"] []]))] []
           "/pkg/b.py").
  - reflexivity.
  - reflexivity.
Defined.

Lemma parsed_prefix_in (l : list (string * source)) (path : string)
  (api : FileSignatureSet) :
  In (path, api) (parsed_prefix l) ->
  exists tree, In (path, Parsed tree) l /\ api = api_of_tree tree.
Proof.
  induction l as [|[q [tree|]] l IH]; simpl; intros H.
  - contradiction.
  - destruct H as [[= -> <-]|H].
    + exists tree. auto.
    + destruct (IH H) as (t & Ht & ->). eauto.
  - contradiction.
Qed.

Lemma nodup_fst_unique {A B : Type} (l : list (A * B)) (a : A) (b b' : B) :
  NoDup (map fst l) -> In (a, b) l -> In (a, b') l -> b = b'.
Proof.
  induction l as [|[x y] l IH]; simpl; intros Hnd H1 H2; [contradiction|].
  inversion Hnd as [|? ? Hout Hnd']; subst.
  destruct H1 as [E1|H1], H2 as [E2|H2].
  - congruence.
  - injection E1 as -> _. exfalso. apply Hout. apply (in_map fst) in H2. exact H2.
  - injection E2 as -> _. exfalso. apply Hout. apply (in_map fst) in H1. exact H1.
  - eauto.
Qed.

(** X11: after a scan that raises no error, every selected file is bound,
    under its path, to the signature set extracted from that very file
    (the paths of the selected files being distinct). *)
Theorem scan_binds_each_file (self self' : ASTVersionInspector) (w w' : World)
  (path : string) (tree : node) :
  scan_package (self, w) = (Ok tt, (self', w')) ->
  NoDup (selected_paths (package_path self) (package w)) ->
  In (path, Parsed tree) (selected_files (package_path self) (package w)) ->
  get (api_signatures self') path = Some (api_of_tree tree).
Proof.
  rewrite scan_package_closed.
  destruct (first_unparsable _) eqn:E; [discriminate|].
  intros [= <- <-] Hnd Hin. simpl.
  destruct (get_assign_all_present
              (parsed_prefix (selected_files (package_path self) (package w)))
              (api_signatures self) path) as (api & Hapi & Hget).
  - rewrite (first_unparsable_none _ E). apply (in_map fst) in Hin. exact Hin.
  - rewrite Hget. apply parsed_prefix_in in Hapi. destruct Hapi as (t & Ht & ->).
    assert (Heq : Parsed t = Parsed tree)
      by (eapply nodup_fst_unique; [exact Hnd | exact Ht | exact Hin]).
    now injection Heq as ->.
Qed.

Lemma scan_binds_each_file_witness :
  get [("/pkg/gone.py", [("bar", FuncSig "def bar()")]);
       ("/pkg/a.py", [("foo", FuncSig "def foo(a)")])] "/pkg/a.py"
  = Some (api_of_tree (Module [FunctionDef "foo" ["a"] []])).
Proof.
  apply (@scan_binds_each_file
           (sample_inspector stale_snapshot false)
           (sample_inspector
              [("/pkg/gone.py", [("bar", FuncSig "def bar()")]);
               ("/pkg/a.py", [("foo", FuncSig "def foo(a)")])] false)
           (sample_world None sample_package) (sample_world None sample_package)
           "/pkg/a.py" (Module [FunctionDef "foo" ["a"] []])).
  - reflexivity.
  - vm_compute. repeat constructor. intros [].
  - vm_compute. now left.
Defined.

(** ** Snapshots compared with themselves *)

Lemma dict_eqb_refl {V : Type} (veqb : V -> V -> bool) (d : dict V) :
  NoDup (keys d) -> (forall k v, In (k, v) d -> veqb v v = true) ->
  Dict.eqb veqb d d = true.
Proof.
  intros Hnd Hv. unfold Dict.eqb. rewrite Nat.eqb_refl. simpl.
  apply forallb_forall. intros [k v] Hin. simpl.
  rewrite (@in_get _ d k v Hnd Hin). eauto.
Qed.

Lemma signature_eqb_refl (s : Signature) :
  well_formed_signature s -> signature_eqb s s = true.
Proof.
  destruct s as [t|m]; simpl; intros H.
  - apply String.eqb_refl.
  - apply dict_eqb_refl; [assumption | intros; apply String.eqb_refl].
Qed.

Lemma file_api_eqb_refl (api : FileSignatureSet) :
  well_formed_api api -> file_api_eqb api api = true.
Proof.
  intros [Hnd Hv]. apply dict_eqb_refl; [assumption|].
  intros k v Hin. apply signature_eqb_refl.
  apply (@forall_in _ _ api (k, v) Hv Hin).
Qed.

Lemma snapshot_eqb_refl (s : Snapshot) :
  well_formed_snapshot s -> snapshot_eqb s s = true.
Proof.
  intros [Hnd Hv]. apply dict_eqb_refl; [assumption|].
  intros k v Hin. apply file_api_eqb_refl.
  apply (@forall_in _ _ s (k, v) Hv Hin).
Qed.

Lemma well_formed_parsed_prefix (l : list (string * source)) :
  Forall (fun kv => well_formed_api (snd kv)) (parsed_prefix l).
Proof.
  induction l as [|[p [tree|]] l IH]; simpl; constructor; [|assumption].
  apply well_formed_api_of_tree.
Qed.

Lemma well_formed_assign_all (l : list (string * FileSignatureSet)) :
  Forall (fun kv => well_formed_api (snd kv)) l ->
  forall s, well_formed_snapshot s -> well_formed_snapshot (assign_all s l).
Proof.
  unfold assign_all. induction 1 as [|[k v] l Hv Hl IH]; intros s Hs; simpl.
  - assumption.
  - apply IH. destruct Hs as [Hnd Hall]. split.
    + now apply nodup_keys_set.
    + apply forall_set; [intros; exact Hv | assumption].
Qed.

(** ** Runs that follow one another *)

Section RunSequences.

Context {codec : Codec}.

Lemma rescan_same_snapshot (self : ASTVersionInspector) (w : World) :
  NoDup (keys (api_signatures self)) ->
  first_unparsable (selected_files (package_path self) (package w)) = None ->
  scan_package (fst (snd (scan_package (self, w))), w) = scan_package (self, w).
Proof.
  intros Hnd Hok. rewrite !scan_package_closed. simpl. rewrite Hok.
  rewrite assign_all_twice by assumption. reflexivity.
Qed.

(** X12: scanning is idempotent, so a run that follows a scan of the same
    files finds nothing: from the object a scan without error leaves (the
    loaded snapshot being well formed), [run] reports that no changes were
    detected, writes nothing and leaves the object as it is. *)
Theorem run_after_scan_finds_no_changes (self self1 : ASTVersionInspector)
  (w w1 : World) :
  well_formed_snapshot (api_signatures self) ->
  scan_package (self, w) = (Ok tt, (self1, w1)) ->
  run (self1, w1)
  = (Ok tt, (self1, print "No changes detected in the public API." w1)).
Proof.
  intros Hwf Hscan.
  assert (Hok : first_unparsable (selected_files (package_path self) (package w)) = None).
  { rewrite scan_package_closed in Hscan. now destruct (first_unparsable _). }
  pose proof (rescan_same_snapshot self w (proj1 Hwf) Hok) as Hre.
  rewrite Hscan in Hre. cbn [fst snd] in Hre.
  assert (Hw : w1 = w /\ well_formed_snapshot (api_signatures self1)).
  { rewrite scan_package_closed in Hscan. injection Hscan as _ <- <-. split; [reflexivity|].
    simpl. apply well_formed_assign_all; [apply well_formed_parsed_prefix | assumption]. }
  destruct Hw as [-> Hwf1].
  rewrite run_steps, Hre, snapshot_eqb_refl by assumption. reflexivity.
Qed.

Lemma load_after_write (data : toml) (table : project_table) (new_version : string)
  (api : Snapshot) (changes : list string) (w : World) :
  pyproject w = Some (updated_document data table new_version api changes) ->
  encode_signatures api <> "" ->
  load_version w = new_version
  /\ load_api_signatures w = decode_signatures (encode_signatures api).
Proof.
  intros Hw Hne. split.
  - unfold load_version. now rewrite Hw.
  - unfold load_api_signatures. rewrite Hw.
    change (encoded_signatures (updated_document data table new_version api changes))
      with (encode_signatures api).
    apply String.eqb_neq in Hne. now rewrite Hne.
Qed.

(** X13: what [save_version] writes is what the next inspector starts
    from: after a write, [__init__] reads back the new version string,
    and the snapshot that was saved whenever the serialisation of that
    snapshot is not empty and decodes to it. *)
Theorem saved_state_is_loaded_back (self : ASTVersionInspector) (w : World)
  (data : toml) (table : project_table) (new_version : string)
  (changes : list string) :
  dry_run self = false ->
  pyproject w = Some data -> project data = Some table ->
  encode_signatures (api_signatures self) <> "" ->
  decode_signatures (encode_signatures (api_signatures self))
  = Ok (api_signatures self) ->
  exists w',
    save_version new_version changes (self, w) = (Ok tt, (self, w'))
    /\ init (package_path self) false w'
       = Ok {| package_path := package_path self;
               current_version := new_version;
               api_signatures := api_signatures self;
               dry_run := false |}.
Proof.
  intros Hdry Hdata Htable Hne Hround.
  destruct (@save_version_writes codec new_version changes self w data table
              Hdry Hdata Htable) as (w' & Hsave & Hp & _).
  exists w'. split; [exact Hsave|].
  destruct (@load_after_write data table new_version (api_signatures self) changes w'
              Hp Hne) as [Hv Ha].
  unfold init. now rewrite Ha, Hround, Hv.
Qed.

(** X14: an invalid version string is noticed only when there is something
    to report: with a current version that does not parse, a run whose
    scan changes the snapshot raises [ValueError] before printing or
    writing anything, and a run whose scan changes nothing ends well. *)
Theorem invalid_version_raises_only_on_change (self self1 : ASTVersionInspector)
  (w w1 : World) :
  Semver.parse (current_version self) = None ->
  scan_package (self, w) = (Ok tt, (self1, w1)) ->
  run (self, w)
  = if snapshot_eqb (api_signatures self) (api_signatures self1)
    then (Ok tt, (self1, print "No changes detected in the public API." w))
    else (Raise (ValueError (current_version self)), (self1, w)).
Proof.
  intros Hv Hscan.
  assert (Hsame : current_version self1 = current_version self /\ w1 = w).
  { rewrite scan_package_closed in Hscan.
    destruct (first_unparsable _); [discriminate|].
    injection Hscan as <- <-. split; reflexivity. }
  destruct Hsame as [Hcv ->].
  rewrite run_steps, Hscan, Hcv.
  destruct (snapshot_eqb _ _); simpl; [reflexivity|].
  unfold detect_changes, increment_version. now rewrite Hv.
Qed.

End RunSequences.

Lemma run_after_scan_finds_no_changes_witness :
  run (sample_inspector [("/pkg/a.py", [("foo", FuncSig "def foo(a)")])] false,
       sample_world (Some sample_document) sample_package)
  = (Ok tt, (sample_inspector [("/pkg/a.py", [("foo", FuncSig "def foo(a)")])] false,
             print "No changes detected in the public API."
                   (sample_world (Some sample_document) sample_package))).
Proof.
  apply (@run_after_scan_finds_no_changes plain_codec
           (sample_inspector [] false)
           (sample_inspector [("/pkg/a.py", [("foo", FuncSig "def foo(a)")])] false)
           (sample_world (Some sample_document) sample_package)
           (sample_world (Some sample_document) sample_package)).
  - split; constructor.
  - reflexivity.
Defined.

Lemma saved_state_is_loaded_back_witness :
  exists w',
    save_version "1.1.0" ["Added foo in /pkg/a.py"]
      (sample_inspector [("/pkg/a.py", [("foo", FuncSig "def foo(a)")])] false,
       sample_world (Some sample_document) sample_package)
    = (Ok tt, (sample_inspector [("/pkg/a.py", [("foo", FuncSig "def foo(a)")])] false, w'))
    /\ init "/pkg" false w'
       = Ok {| package_path := "/pkg";
               current_version := "1.1.0";
               api_signatures := [("/pkg/a.py", [("foo", FuncSig "def foo(a)")])];
               dry_run := false |}.
Proof.
  apply (@saved_state_is_loaded_back plain_codec
           (sample_inspector [("/pkg/a.py", [("foo", FuncSig "def foo(a)")])] false)
           (sample_world (Some sample_document) sample_package)
           sample_document {| version := Some "1.0.0"; project_rest := [] |}
           "1.1.0" ["Added foo in /pkg/a.py"]).
  - reflexivity.
  - reflexivity.
  - reflexivity.
  - discriminate.
  - reflexivity.
Defined.

Lemma invalid_version_raises_only_on_change_witness :
  run ({| package_path := "/pkg"; current_version := "1.0";
          api_signatures := []; dry_run := false |},
       sample_world (Some sample_document) sample_package)
  = (Raise (ValueError "1.0"),
     ({| package_path := "/pkg"; current_version := "1.0";
         api_signatures := [("/pkg/a.py", [("foo", FuncSig "def foo(a)")])];
         dry_run := false |},
      sample_world (Some sample_document) sample_package)).
Proof.
  apply (@invalid_version_raises_only_on_change plain_codec
           {| package_path := "/pkg"; current_version := "1.0";
              api_signatures := []; dry_run := false |}
           {| package_path := "/pkg"; current_version := "1.0";
              api_signatures := [("/pkg/a.py", [("foo", FuncSig "def foo(a)")])];
              dry_run := false |}
           (sample_world (Some sample_document) sample_package)
           (sample_world (Some sample_document) sample_package)).
  - reflexivity.
  - reflexivity.
Defined.

(** ** What a run prints and writes *)

Lemma printed_nil (w : World) : printed [] w = w.
Proof. destruct w. unfold printed. simpl. now rewrite app_nil_r. Qed.

Lemma printed_print (line : string) (lines : list string) (w : World) :
  printed lines (print line w) = printed (line :: lines) w.
Proof. unfold printed, print. simpl. now rewrite <- app_assoc. Qed.

Lemma print_printed (line : string) (w : World) : print line w = printed [line] w.
Proof. reflexivity. Qed.

Lemma printed_printed (l1 l2 : list string) (w : World) :
  printed l2 (printed l1 w) = printed (l1 ++ l2) w.
Proof. unfold printed. simpl. now rewrite app_assoc. Qed.

Section RunOutput.

Context {codec : Codec}.

Lemma print_changes_printed (changes : list string) :
  forall (self : ASTVersionInspector) (w : World),
  print_changes changes (self, w)
  = (Ok tt, (self, printed (map (fun change => "- " ++ change) changes) w)).
Proof.
  induction changes as [|c changes IH]; intros self w.
  - simpl. now rewrite printed_nil.
  - unfold print_changes. rewrite for_each_cons.
    unfold on_world at 1, modify. cbn [fst snd].
    fold (print_changes changes). rewrite IH. simpl map. now rewrite printed_print.
Qed.

Lemma save_version_dry_printed (new_version : string) (changes : list string)
  (self : ASTVersionInspector) (w : World) :
  dry_run self = true ->
  save_version new_version changes (self, w)
  = (Ok tt,
     (self, printed (("[Dry Run] Would update pyproject.toml to version " ++ new_version)
                     :: "[Dry Run] Changes detected:"
                     :: map (fun change => "- " ++ change) changes) w)).
Proof.
  intros Hdry. unfold save_version. rewrite bind_run. unfold read at 1.
  cbn [fst snd]. rewrite Hdry.
  rewrite bind_run. unfold on_world at 1, modify. cbn [fst snd].
  rewrite bind_run. unfold on_world at 1, modify. cbn [fst snd].
  rewrite print_changes_printed, !printed_print. reflexivity.
Qed.

Lemma save_version_written (new_version : string) (changes : list string)
  (self : ASTVersionInspector) (w : World) (data : toml) (table : project_table) :
  dry_run self = false -> pyproject w = Some data -> project data = Some table ->
  save_version new_version changes (self, w)
  = (Ok tt,
     (self,
      printed (("Updated pyproject.toml to version " ++ new_version)
               :: "Changes detected:"
               :: map (fun change => "- " ++ change) changes)
              (write_pyproject
                 (updated_document data table new_version (api_signatures self) changes)
                 w))).
Proof.
  intros Hdry Hdata Htable. unfold save_version. rewrite bind_run.
  unfold read at 1. cbn [fst snd]. rewrite Hdry, Hdata, Htable.
  rewrite bind_run. unfold on_world at 1, modify. cbn [fst snd].
  rewrite bind_run. unfold on_world at 1, modify. cbn [fst snd].
  rewrite bind_run. unfold on_world at 1, modify. cbn [fst snd].
  rewrite print_changes_printed, !printed_print. reflexivity.
Qed.

(** X15: a dry run reports the decision a real run would write: when the
    scan changes the snapshot, it prints the old and the new version, the
    version it would set, and one line for each change record, in the
    order of the records, and ends well. *)
Theorem dry_run_reports_the_decision (self self1 : ASTVersionInspector)
  (w w1 : World) (new_version : string) (changes : list string) :
  dry_run self = true ->
  scan_package (self, w) = (Ok tt, (self1, w1)) ->
  snapshot_eqb (api_signatures self) (api_signatures self1) = false ->
  detect_changes (current_version self) (api_signatures self) (api_signatures self1)
  = Ok (new_version, changes) ->
  run (self, w)
  = (Ok tt,
     (self1,
      printed (("Updating version: " ++ current_version self ++ " -> " ++ new_version)
               :: ("[Dry Run] Would update pyproject.toml to version " ++ new_version)
               :: "[Dry Run] Changes detected:"
               :: map (fun change => "- " ++ change) changes) w)).
Proof.
  intros Hdry Hscan Hdiff Hdetect.
  assert (Hsame : current_version self1 = current_version self
                  /\ dry_run self1 = dry_run self /\ w1 = w).
  { rewrite scan_package_closed in Hscan.
    destruct (first_unparsable _); [discriminate|].
    injection Hscan as <- <-. repeat split. }
  destruct Hsame as (Hcv & Hd1 & ->). rewrite <- Hd1 in Hdry.
  rewrite run_steps, Hscan, Hdiff, Hcv, Hdetect. cbn [negb].
  rewrite save_version_dry_printed by assumption.
  now rewrite printed_print.
Qed.

(** The files after [save_version], whatever the mode and the store. *)
Lemma save_version_files (new_version : string) (changes : list string)
  (self : ASTVersionInspector) (w : World) :
  exists w',
    save_version new_version changes (self, w) = (Ok tt, (self, w'))
    /\ package w' = package w
    /\ ((pyproject w' = pyproject w /\ dumped w' = dumped w)
        \/ (dry_run self = false
            /\ exists data table,
                 pyproject w = Some data /\ project data = Some table
                 /\ pyproject w'
                    = Some (updated_document data table new_version
                              (api_signatures self) changes)
                 /\ dumped w'
                    = updated_document data table new_version
                        (api_signatures self) changes :: dumped w)).
Proof.
  destruct (dry_run self) eqn:Hdry.
  - eexists. split; [apply save_version_dry_printed; assumption|]. simpl. auto.
  - destruct (pyproject w) as [data|] eqn:Hdata.
    + destruct (project data) as [table|] eqn:Htable.
      * eexists. split; [apply save_version_written; eassumption|]. simpl.
        split; [reflexivity|]. right. split; [reflexivity|]. exists data, table. auto.
      * exists w. split; [|auto].
        apply save_version_no_store; [assumption|]. right. eauto.
    + exists w. split; [|auto].
      apply save_version_no_store; [assumption|]. now left.
Qed.

(** X16: a run writes pyproject.toml at most once, and only in a run that
    is not a dry run, ends well and found the file with a project table;
    the document it writes keeps what the file held beside
    [project.version] and [tool.ast_inspector].  A run never creates the
    file, and never touches the package. *)
Theorem run_writes_at_most_once (self : ASTVersionInspector) (w : World) :
  package (snd (snd (run (self, w)))) = package w
  /\ (pyproject w = None -> pyproject (snd (snd (run (self, w)))) = None)
  /\ ((pyproject (snd (snd (run (self, w)))) = pyproject w
       /\ dumped (snd (snd (run (self, w)))) = dumped w)
      \/ (dry_run self = false
          /\ fst (run (self, w)) = Ok tt
          /\ exists data table doc,
               pyproject w = Some data /\ project data = Some table
               /\ pyproject (snd (snd (run (self, w)))) = Some doc
               /\ dumped (snd (snd (run (self, w)))) = doc :: dumped w
               /\ toml_rest doc = toml_rest data
               /\ option_map project_rest (project doc) = Some (project_rest table)
               /\ option_map tool_rest (tool doc)
                  = Some (match tool data with Some t => tool_rest t | None => [] end))).
Proof.
  assert (H : package (snd (snd (run (self, w)))) = package w
              /\ ((pyproject (snd (snd (run (self, w)))) = pyproject w
                   /\ dumped (snd (snd (run (self, w)))) = dumped w)
                  \/ (dry_run self = false
                      /\ fst (run (self, w)) = Ok tt
                      /\ exists data table doc,
                           pyproject w = Some data /\ project data = Some table
                           /\ pyproject (snd (snd (run (self, w)))) = Some doc
                           /\ dumped (snd (snd (run (self, w)))) = doc :: dumped w
                           /\ toml_rest doc = toml_rest data
                           /\ option_map project_rest (project doc)
                              = Some (project_rest table)
                           /\ option_map tool_rest (tool doc)
                              = Some (match tool data with
                                      | Some t => tool_rest t
                                      | None => []
                                      end)))).
  { rewrite run_steps, scan_package_closed.
    destruct (first_unparsable _); [simpl; auto|].
    destruct (negb _); [|simpl; auto].
    destruct (detect_changes _ _ _) as [[new_version changes]|e]; [|simpl; auto].
    match goal with
    | |- context [save_version new_version changes (?s, ?w0)] =>
        destruct (save_version_files new_version changes s w0)
          as (w' & -> & Hpkg & Hcases)
    end.
    cbn [fst snd]. split; [exact Hpkg|].
    destruct Hcases as [[Hp Hd]|(Hdry & data & table & Hdata & Htable & Hp & Hd)].
    - left. auto.
    - right. split; [exact Hdry|]. split; [reflexivity|].
      exists data, table. eexists. split; [exact Hdata|]. split; [exact Htable|].
      split; [exact Hp|]. split; [exact Hd|]. repeat split. }
  destruct H as [Hpkg Hcases]. split; [exact Hpkg|]. split; [|exact Hcases].
  intros Hnone. destruct Hcases as [[Hp _]|(_ & _ & data & _ & _ & Hdata & _)].
  - now rewrite Hp.
  - congruence.
Qed.

End RunOutput.

Lemma dry_run_reports_the_decision_witness :
  run (sample_inspector [] true, sample_world (Some sample_document) sample_package)
  = (Ok tt,
     (sample_inspector [("/pkg/a.py", [("foo", FuncSig "def foo(a)")])] true,
      printed ["Updating version: 1.0.0 -> 1.1.0";
               "[Dry Run] Would update pyproject.toml to version 1.1.0";
               "[Dry Run] Changes detected:";
               "- Added foo in /pkg/a.py"]
              (sample_world (Some sample_document) sample_package))).
Proof.
  apply (@dry_run_reports_the_decision plain_codec
           (sample_inspector [] true)
           (sample_inspector [("/pkg/a.py", [("foo", FuncSig "def foo(a)")])] true)
           (sample_world (Some sample_document) sample_package)
           (sample_world (Some sample_document) sample_package)
           "1.1.0" ["Added foo in /pkg/a.py"]).
  - reflexivity.
  - reflexivity.
  - reflexivity.
  - reflexivity.
Defined.

(** ** Two updates in a row *)

Section UpdateTwice.

Context {codec : Codec}.

Lemma init_same_store (path : string) (dry : bool) (w w' : World) :
  pyproject w' = pyproject w -> init path dry w' = init path dry w.
Proof.
  intros H. unfold init, load_version, load_api_signatures. now rewrite H.
Qed.

(** X17: two updates in a row of an unchanged package, pyproject.toml
    being there with a project table: when the first [update] ends well
    and the snapshot it scanned is read back from its serialisation, the
    second [update] reports that no changes were detected and writes
    nothing. *)
Theorem second_update_finds_no_changes (path : string) (w w1 : World)
  (self : ASTVersionInspector) (data : toml) (table : project_table) :
  init path false w = Ok self ->
  well_formed_snapshot (api_signatures self) ->
  pyproject w = Some data -> project data = Some table ->
  encode_signatures (api_signatures (fst (snd (scan_package (self, w))))) <> "" ->
  decode_signatures
    (encode_signatures (api_signatures (fst (snd (scan_package (self, w))))))
  = Ok (api_signatures (fst (snd (scan_package (self, w))))) ->
  update path w = (Ok tt, w1) ->
  update path w1
  = (Ok tt, print "No changes detected in the public API." w1).
Proof.
  intros Hinit Hwf Hdata Htable Hne Hround Hupd.
  destruct (init_dry_run _ _ _ Hinit) as [Hdry Hpath].
  unfold update in *. rewrite (command_run _ _ _ Hinit) in Hupd.
  rewrite run_steps in Hupd.
  destruct (scan_package (self, w)) as [[[]|e] [self1 ws]] eqn:Hscan;
    [|discriminate].
  assert (Hs : ws = w /\ package_path self1 = path /\ dry_run self1 = false
               /\ current_version self1 = current_version self
               /\ well_formed_snapshot (api_signatures self1)).
  { rewrite scan_package_closed in Hscan. injection Hscan as _ <- <-.
    repeat split; try assumption.
    - simpl. apply nodup_keys_assign_all. apply Hwf.
    - simpl. apply well_formed_assign_all; [apply well_formed_parsed_prefix | assumption]. }
  destruct Hs as (-> & Hp1 & Hd1 & Hcv1 & Hwf1). cbn [fst snd] in Hne, Hround.
  destruct (snapshot_eqb (api_signatures self) (api_signatures self1)) eqn:Heq;
    cbn [negb] in Hupd.
  - (* nothing changed: the store is as it was *)
    cbn [fst snd] in Hupd. injection Hupd as <-.
    assert (Hinit' : init path false (print "No changes detected in the public API." w)
                     = Ok self)
      by (rewrite <- Hinit; now apply init_same_store).
    rewrite (command_run _ _ _ Hinit'), run_steps.
    assert (Hscan' : scan_package (self, print "No changes detected in the public API." w)
                     = (Ok tt, (self1, print "No changes detected in the public API." w))).
    { rewrite scan_package_closed in Hscan |- *. cbn [package print].
      destruct (first_unparsable _); [discriminate|].
      injection Hscan as <-. reflexivity. }
    rewrite Hscan', Heq. reflexivity.
  - (* the first update wrote the store *)
    destruct (detect_changes _ _ _) as [[new_version changes]|e] eqn:Hdet;
      [|discriminate].
    rewrite (@save_version_written codec new_version changes self1
               (print ("Updating version: " ++ current_version self1
                       ++ " -> " ++ new_version) w)
               data table Hd1 Hdata Htable) in Hupd.
    cbn [fst snd] in Hupd. injection Hupd as <-.
    match goal with
    | |- command false path ?w2 = _ => set (w' := w2)
    end.
    assert (Hstore : pyproject w'
                     = Some (updated_document data table new_version
                               (api_signatures self1) changes)) by reflexivity.
    destruct (@load_after_write codec data table new_version (api_signatures self1)
                changes w' Hstore Hne) as [Hv Ha].
    assert (Hinit' : init path false w'
                     = Ok {| package_path := path; current_version := new_version;
                             api_signatures := api_signatures self1;
                             dry_run := false |}).
    { unfold init. now rewrite Ha, Hround, Hv. }
    rewrite (command_run _ _ _ Hinit'), run_steps.
    assert (Hscan' : scan_package
                       ({| package_path := path; current_version := new_version;
                           api_signatures := api_signatures self1;
                           dry_run := false |}, w')
                     = (Ok tt,
                        ({| package_path := path; current_version := new_version;
                            api_signatures := api_signatures self1;
                            dry_run := false |}, w'))).
    { pose proof Hscan as Hc. rewrite scan_package_closed in Hc.
      rewrite scan_package_closed. cbn [package_path api_signatures].
      change (package w') with (package w). rewrite <- Hpath.
      destruct (first_unparsable _); [discriminate|].
      injection Hc as Hc. rewrite <- Hc. cbn [api_signatures with_api_signatures].
      rewrite assign_all_twice by apply Hwf.
      unfold with_api_signatures. reflexivity. }
    rewrite Hscan'. cbn [api_signatures].
    rewrite snapshot_eqb_refl by assumption. reflexivity.
Qed.

End UpdateTwice.

Lemma second_update_finds_no_changes_witness :
  update "/pkg" (snd (update "/pkg" (sample_world (Some sample_document) sample_package)))
  = (Ok tt,
     print "No changes detected in the public API."
           (snd (update "/pkg" (sample_world (Some sample_document) sample_package)))).
Proof.
  apply (@second_update_finds_no_changes plain_codec "/pkg"
           (sample_world (Some sample_document) sample_package)
           (snd (update "/pkg" (sample_world (Some sample_document) sample_package)))
           (sample_inspector [] false)
           sample_document {| version := Some "1.0.0"; project_rest := [] |}).
  - reflexivity.
  - split; constructor.
  - reflexivity.
  - reflexivity.
  - discriminate.
  - reflexivity.
  - reflexivity.
Defined.

(** ** The first run, and runs that change no version *)

(** X18: against an empty snapshot, which is what an inspector starts from
    when pyproject.toml or its stored signatures are missing, every record
    is an Added record: the major counter is zero and the version is
    bumped at the minor level, or not at all. *)
Theorem first_run_only_adds (current_version : string) (v : Semver.Version)
  (new : Snapshot) :
  Semver.parse current_version = Some v ->
  Forall (fun c => is_addition c = true) (changes (classify empty new))
  /\ major (classify empty new) = 0
  /\ exists new_version,
       detect_changes current_version empty new
       = Ok (new_version, map describe (changes (classify empty new)))
       /\ (new_version = Semver.to_string (Semver.bump_minor v)
           \/ new_version = current_version).
Proof.
  intros Hv.
  assert (Hall : Forall (fun c => is_addition c = true) (changes (classify empty new))).
  { apply Forall_forall. intros c Hc. apply changes_classify in Hc.
    destruct Hc as ([file new_api] & _ & [(e & _ & [[_ ->]|(o & Hg & _)])
                                         |(e & He & _)]).
    - reflexivity.
    - discriminate.
    - destruct He. }
  assert (Hnone : existsb is_breaking (changes (classify empty new)) = false).
  { destruct (existsb _ _) eqn:E; [|reflexivity].
    apply existsb_exists in E. destruct E as (c & Hc & Hb).
    rewrite Forall_forall in Hall. specialize (Hall _ Hc). now destruct c. }
  split; [exact Hall|]. split.
  - destruct (counted_classify empty new) as (Hm & _).
    rewrite Hm. pose proof (filter_length_existsb is_breaking
                              (changes (classify empty new))) as H.
    rewrite Hnone in H. destruct (length _); [reflexivity | discriminate].
  - eexists. split; [apply detect_changes_by_records; exact Hv|].
    unfold bump_for. rewrite Hnone.
    destruct (existsb is_addition _); [now left | right].
    now apply to_string_parse.
Qed.

Lemma first_run_only_adds_witness :
  Forall (fun c => is_addition c = true) (changes (classify empty snapshot_with_foo))
  /\ major (classify empty snapshot_with_foo) = 0
  /\ exists new_version,
       detect_changes "0.1.0" empty snapshot_with_foo
       = Ok (new_version, map describe (changes (classify empty snapshot_with_foo)))
       /\ (new_version = "0.2.0" \/ new_version = "0.1.0").
Proof.
  apply (@first_run_only_adds "0.1.0"
           {| Semver.major := 0; Semver.minor := 1; Semver.patch := 0 |}
           snapshot_with_foo).
  reflexivity.
Defined.

Section QuietWrite.

Context {codec : Codec}.

(** X19: the snapshot can change without any record: when the scan
    changes the snapshot and the diff is empty (a new file that declares
    nothing), a run that is not a dry run still writes pyproject.toml,
    with the version it had, the new snapshot and an empty change list. *)
Theorem snapshot_written_with_version_unchanged (self self1 : ASTVersionInspector)
  (w w1 : World) (v : Semver.Version) (data : toml) (table : project_table) :
  dry_run self = false ->
  pyproject w = Some data -> project data = Some table ->
  Semver.parse (current_version self) = Some v ->
  scan_package (self, w) = (Ok tt, (self1, w1)) ->
  snapshot_eqb (api_signatures self) (api_signatures self1) = false ->
  changes (classify (api_signatures self) (api_signatures self1)) = [] ->
  exists w',
    run (self, w) = (Ok tt, (self1, w'))
    /\ pyproject w'
       = Some (updated_document data table (current_version self)
                 (api_signatures self1) [])
    /\ dumped w'
       = updated_document data table (current_version self)
           (api_signatures self1) [] :: dumped w.
Proof.
  intros Hdry Hdata Htable Hv Hscan Hdiff Hnone.
  assert (Hsame : current_version self1 = current_version self
                  /\ dry_run self1 = dry_run self /\ w1 = w).
  { rewrite scan_package_closed in Hscan.
    destruct (first_unparsable _); [discriminate|].
    injection Hscan as <- <-. repeat split. }
  destruct Hsame as (Hcv & Hd1 & ->). rewrite <- Hd1 in Hdry.
  assert (Hdet : detect_changes (current_version self) (api_signatures self)
                   (api_signatures self1)
                 = Ok (current_version self, [])).
  { rewrite (@detect_changes_by_records (current_version self) v _ _ Hv), Hnone.
    unfold bump_for. simpl. now rewrite (to_string_parse _ Hv). }
  rewrite run_steps, Hscan, Hdiff, Hcv, Hdet. cbn [negb].
  rewrite (@save_version_written codec (current_version self) [] self1
             (print ("Updating version: " ++ current_version self
                     ++ " -> " ++ current_version self) w)
             data table Hdry Hdata Htable).
  eexists. split; [reflexivity|]. split; reflexivity.
Qed.

End QuietWrite.

Lemma snapshot_written_with_version_unchanged_witness :
  exists w',
    run (sample_inspector [("/pkg/a.py", [("foo", FuncSig "def foo(a)")])] false,
         sample_world (Some sample_document) package_with_empty_file)
    = (Ok tt,
       (sample_inspector [("/pkg/a.py", [("foo", FuncSig "def foo(a)")]);
                          ("/pkg/empty.py", [])] false, w'))
    /\ pyproject w'
       = Some (updated_document sample_document
                 {| version := Some "1.0.0"; project_rest := [] |} "1.0.0"
                 [("/pkg/a.py", [("foo", FuncSig "def foo(a)")]); ("/pkg/empty.py", [])]
                 [])
    /\ dumped w'
       = [updated_document sample_document
            {| version := Some "1.0.0"; project_rest := [] |} "1.0.0"
            [("/pkg/a.py", [("foo", FuncSig "def foo(a)")]); ("/pkg/empty.py", [])]
            []].
Proof.
  apply (@snapshot_written_with_version_unchanged plain_codec
           (sample_inspector [("/pkg/a.py", [("foo", FuncSig "def foo(a)")])] false)
           (sample_inspector [("/pkg/a.py", [("foo", FuncSig "def foo(a)")]);
                              ("/pkg/empty.py", [])] false)
           (sample_world (Some sample_document) package_with_empty_file)
           (sample_world (Some sample_document) package_with_empty_file)
           {| Semver.major := 1; Semver.minor := 0; Semver.patch := 0 |}
           sample_document {| version := Some "1.0.0"; project_rest := [] |}).
  - reflexivity.
  - reflexivity.
  - reflexivity.
  - reflexivity.
  - reflexivity.
  - reflexivity.
  - reflexivity.
Defined.

(** ** Which files are scanned *)

Lemma substring_whole (s : string) : String.substring 0 (String.length s) s = s.
Proof. induction s as [|c s IH]; simpl; [reflexivity | now rewrite IH]. Qed.

Lemma substring_after (pre suf : string) :
  String.substring (String.length pre) (String.length suf) (pre ++ suf) = suf.
Proof. induction pre as [|c pre IH]; simpl; [apply substring_whole | exact IH]. Qed.

Lemma length_append (a b : string) :
  String.length (a ++ b) = String.length a + String.length b.
Proof. induction a as [|c a IH]; simpl; [reflexivity | now rewrite IH]. Qed.

Lemma substring_split (s : string) : forall k,
  k <= String.length s ->
  s = String.substring 0 k s ++ String.substring k (String.length s - k) s.
Proof.
  induction s as [|c s IH]; intros [|k] Hk; simpl in *.
  - reflexivity.
  - lia.
  - now rewrite substring_whole.
  - f_equal. apply IH. lia.
Qed.

(** [s.endswith(suffix)] holds exactly of the strings that end with
    [suffix]. *)
Lemma endswith_iff (s suffix : string) :
  endswith s suffix = true <-> exists stem, s = stem ++ suffix.
Proof.
  unfold endswith. split.
  - intros H. apply andb_prop in H. destruct H as [Hle Heq].
    apply Nat.leb_le in Hle. apply String.eqb_eq in Heq.
    exists (String.substring 0 (String.length s - String.length suffix) s).
    pose proof (@substring_split s (String.length s - String.length suffix)) as Hs.
    replace (String.length s - (String.length s - String.length suffix))
      with (String.length suffix) in Hs by lia.
    rewrite Heq in Hs. apply Hs. lia.
  - intros (stem & ->). rewrite length_append.
    apply andb_true_intro. split; [apply Nat.leb_le; lia|].
    replace (String.length stem + String.length suffix - String.length suffix)
      with (String.length stem) by lia.
    rewrite substring_after. apply String.eqb_refl.
Qed.

Lemma startswith_underscore (s : string) :
  startswith s "_" = true <-> exists rest, s = String "_" rest.
Proof.
  unfold startswith. rewrite String.prefix_correct.
  destruct s as [|c s]; simpl.
  - split; [discriminate | intros (rest & [=])].
  - destruct s; simpl; (split; [intros [= ->]; eauto | intros (rest & [= -> _]); reflexivity]).
Qed.

(** X20: the scan selects a file exactly when its name ends with [.py]
    and does not begin with an underscore; so [__init__.py] and every
    other module whose name begins with an underscore is never scanned,
    and a file named [.py] is. *)
Theorem file_selection_rule (file : string) :
  selected file = true
  <-> (exists stem, file = stem ++ ".py") /\ (forall rest, file <> String "_" rest).
Proof.
  unfold selected. rewrite andb_true_iff, negb_true_iff, endswith_iff.
  split; intros [Hpy Hu]; (split; [exact Hpy|]).
  - intros rest ->. destruct (startswith_underscore (String "_" rest)) as [_ H].
    rewrite H in Hu by eauto. discriminate.
  - destruct (startswith file "_") eqn:E; [|reflexivity].
    apply startswith_underscore in E. destruct E as (rest & ->).
    now destruct (Hu rest).
Qed.

Lemma os_walk_directory (top : string) (d : dir) (root : string)
  (files : list (string * source)) :
  directory_at top d root files -> In (root, files) (os_walk top d).
Proof.
  induction 1 as [top files subdirs
                 |top name files subdirs sub root files' Hin _ IH].
  - simpl. now left.
  - simpl. right. induction subdirs as [|[name0 sub0] subdirs IHs].
    + contradiction.
    + apply in_or_app. destruct Hin as [[= -> ->]|Hin]; [now left | right; auto].
Qed.

(** X21: the scan goes down the whole directory tree: after a scan
    without error, every selected file of every directory of the package,
    at any depth, is a key of the snapshot, under the path of its
    directory joined with its name. *)
Theorem scan_reaches_every_directory (self self' : ASTVersionInspector)
  (w w' : World) (root file : string) (files : list (string * source))
  (text : source) :
  scan_package (self, w) = (Ok tt, (self', w')) ->
  directory_at (package_path self) (package w) root files ->
  In (file, text) files -> selected file = true ->
  In (path_join root file) (keys (api_signatures self')).
Proof.
  rewrite scan_package_closed.
  destruct (first_unparsable _) eqn:E; [discriminate|].
  intros [= <- <-] Hdir Hfile Hsel. simpl.
  apply keys_assign_all. right. rewrite (first_unparsable_none _ E).
  apply in_map_iff. exists (path_join root file, text). split; [reflexivity|].
  unfold selected_files. apply in_flat_map.
  exists (root, files). split; [now apply os_walk_directory|].
  simpl. apply in_map_iff. exists (file, text). split; [reflexivity|].
  apply filter_In. auto.
Qed.

Lemma scan_reaches_every_directory_witness :
  In (path_join "/pkg/sub" "b.py")
     (keys [("/pkg/a.py", [("foo", FuncSig "def foo(a)")]);
            ("/pkg/sub/b.py", [("B", ClassSig [])])]).
Proof.
  apply (@scan_reaches_every_directory
           (sample_inspector [] false)
           (sample_inspector [("/pkg/a.py", [("foo", FuncSig "def foo(a)")]);
                              ("/pkg/sub/b.py", [("B", ClassSig [])])] false)
           (sample_world None package_with_subpackage)
           (sample_world None package_with_subpackage)
           "/pkg/sub" "b.py"
           [("__init__.py", Parsed (Module [FunctionDef "hidden" [] []]));
            ("b.py", Parsed (Module [ClassDef "B" []]))]
           (Parsed (Module [ClassDef "B" []]))).
  - reflexivity.
  - eapply directory_below; [now left | apply directory_here].
  - right. now left.
  - reflexivity.
Defined.

Lemma first_unparsable_none_iff (l : list (string * source)) :
  first_unparsable l = None <-> forall path, ~ In (path, Unparsable) l.
Proof.
  induction l as [|[p [tree|]] l IH]; simpl.
  - split; [intros _ path [] | reflexivity].
  - rewrite IH. split.
    + intros H path [[=]|Hin]. now apply (H path).
    + intros H path Hin. apply (H path). now right.
  - split; [discriminate|]. intros H. exfalso. apply (H p). now left.
Qed.

(** X22: only the selected files are parsed: a scan ends without error
    exactly when every selected file parses, whatever the other files of
    the package hold. *)
Theorem scan_succeeds_iff_selected_files_parse (self : ASTVersionInspector) (w : World) :
  fst (scan_package (self, w)) = Ok tt
  <-> forall path,
        ~ In (path, Unparsable) (selected_files (package_path self) (package w)).
Proof.
  rewrite scan_package_closed, <- first_unparsable_none_iff. simpl.
  destruct (first_unparsable _); split; congruence.
Qed.
